(** * WhatsApp fake-news checker: the webhook pipeline of [whatsapp_webhook.py]

    A shallow embedding of the functions of [whatsapp_webhook.py]
    ([download_media], [sarvam_transcribe], [gemini_fact_check],
    [send_whatsapp_reply], [process_incoming], [root], [twilio_webhook])
    and the properties the specification states about them.  Line numbers
    are those of [whatsapp_webhook.py].  The two scripts [main.py] and
    [test_twilio.py] are embedded as [main] and [test_twilio], with line
    numbers of their own files.

    Python values are modelled as follows.
    - A [str] is the list of its Unicode code points ([pystr]).
    - [bytes] is a list of [Byte.byte].
    - An exception is a value of [exn].  All of them are instances of
      [Exception]: the calls of the pipeline raise nothing else
      ([KeyboardInterrupt] and [SystemExit] are not raised by them), so
      [except Exception] catches whatever they raise.
    - The hosted services, the file system and the interpreter
      configuration form an environment [Env] of oracles.  Every oracle
      reads the current [World] (which holds the whole history of
      external calls), so one service may answer differently from one
      call to the next.
    - Every call outside the program returns or raises: a call that
      never answers is not modelled.
    - Effects are threaded through a state-and-exception monad. *)

From Stdlib Require Import ZArith NArith Lia Ascii String.
From stdpp Require Import base option list gmap strings.

Set Default Proof Using "Type".
Local Open Scope N_scope.

(** ** Python strings *)

Abbreviation pystr := (list N).
Abbreviation bytes := (list Byte.byte).

(** An ASCII literal of the source, as code points. *)
Definition lit (s : string) : pystr :=
  (fun a => N_of_ascii a) <$> list_ascii_of_string s.
Arguments lit s%_string.

(** [str.isspace] on one code point: the white-space table of CPython
    ([_PyUnicode_IsWhitespace]). *)
Definition py_isspace (c : N) : bool :=
  ((9 <=? c) && (c <=? 13)) || ((28 <=? c) && (c <=? 32))
  || (c =? 133) || (c =? 160) || (c =? 5760)
  || ((8192 <=? c) && (c <=? 8202))
  || (c =? 8232) || (c =? 8233) || (c =? 8239) || (c =? 8287)
  || (c =? 12288).

(** [s.lstrip()], [s.rstrip()] and [s.strip()] without argument. *)
Fixpoint lstrip (s : pystr) : pystr :=
  match s with
  | c :: s' => if py_isspace c then lstrip s' else s
  | [] => []
  end.

Definition rstrip (s : pystr) : pystr := reverse (lstrip (reverse s)).

Definition strip (s : pystr) : pystr := rstrip (lstrip s).

(** Truth value of a [str] and of an optional [str] ([None] is false,
    and so is the empty string). *)
Definition truthy (s : pystr) : bool :=
  match s with [] => false | _ :: _ => true end.

Definition truthy_opt (o : option pystr) : bool :=
  match o with Some s => truthy s | None => false end.

(** [a or b] on optional strings: the first operand when it is true,
    else the second. *)
Definition py_or (a b : option pystr) : option pystr :=
  if truthy_opt a then a else b.

(** [p in s] for two strings: [p] occurs in [s] as a substring. *)
Fixpoint starts_with (p s : pystr) : bool :=
  match p, s with
  | [], _ => true
  | a :: p', b :: s' => (a =? b) && starts_with p' s'
  | _ :: _, [] => false
  end.

Fixpoint contains (p s : pystr) : bool :=
  starts_with p s ||
  match s with
  | [] => false
  | _ :: s' => contains p s'
  end.

(** ** [int(s)] on a string

    [PyLong_FromUnicodeObject] with base 10.  The string is first brought
    to ASCII: a code point below 128 is kept, a Unicode white space becomes
    a blank, a Unicode decimal digit becomes its ASCII digit, anything else
    becomes [?].  The ASCII text is then read as: ASCII white space, an
    optional sign, decimal digits with single underscores between them,
    ASCII white space.  Anything else is a [ValueError], here [None]. *)

(** The code points of the digit zero of every decimal system of Unicode
    14; the nine other digits follow each of them. *)
Definition decimal_zeros : list N :=
  [48; 1632; 1776; 1984; 2406; 2534; 2662; 2790; 2918; 3046; 3174; 3302;
   3430; 3558; 3664; 3792; 3872; 4160; 4240; 6112; 6160; 6470; 6608; 6784;
   6800; 6992; 7088; 7232; 7248; 42528; 43216; 43264; 43472; 43504; 43600;
   44016; 65296; 66720; 68912; 69734; 69872; 69942; 70096; 70384; 70736;
   70864; 71248; 71360; 71472; 71904; 72016; 72784; 73040; 73120; 92768;
   92864; 93008; 120782; 120792; 120802; 120812; 120822; 123200; 123632;
   125264; 130032].

(** [Py_UNICODE_TODECIMAL]. *)
Definition to_decimal (c : N) : option N :=
  (fun p => c - p.2) <$>
    list_find (fun z => z <= c ∧ c < z + 10) decimal_zeros.

Definition to_ascii (c : N) : N :=
  if c <? 128 then c
  else if py_isspace c then 32
  else match to_decimal c with
       | Some d => 48 + d
       | None => 63
       end.

(** [Py_ISSPACE]: the six ASCII white spaces. *)
Definition ascii_isspace (c : N) : bool :=
  ((9 <=? c) && (c <=? 13)) || (c =? 32).

Definition ascii_digit (c : N) : option N :=
  if (48 <=? c) && (c <=? 57) then Some (c - 48) else None.

Fixpoint skip_spaces (s : pystr) : pystr :=
  match s with
  | c :: s' => if ascii_isspace c then skip_spaces s' else s
  | [] => []
  end.

(** The digit run after a first digit: [acc] is the value read so far,
    [n] the number of digits read; an underscore must be followed by a
    digit.  Returns the value, the number of digits and the rest. *)
Fixpoint digit_run (acc n : N) (s : pystr) : option (N * N * pystr) :=
  match s with
  | [] => Some (acc, n, [])
  | c :: s' =>
      match ascii_digit c with
      | Some d => digit_run (10 * acc + d) (n + 1) s'
      | None =>
          if c =? 95 then
            match s' with
            | c' :: _ =>
                match ascii_digit c' with
                | Some _ => digit_run acc n s'
                | None => None
                end
            | [] => None
            end
          else Some (acc, n, s)
      end
  end.

(** [sys.get_int_max_str_digits()] is [max_digits] ([0]: no limit); the
    limit applies above 640 digits only. *)
Definition py_int (max_digits : N) (s : pystr) : option Z :=
  let t := skip_spaces (to_ascii <$> s) in
  let '(neg, t) :=
    match t with
    | 43 :: t' => (false, t')
    | 45 :: t' => (true, t')
    | _ => (false, t)
    end in
  match t with
  | c :: _ =>
      match ascii_digit c with
      | Some _ =>
          match digit_run 0 0 t with
          | Some (v, n, rest) =>
              match skip_spaces rest with
              | [] =>
                  if (640 <? n) && (0 <? max_digits) && (max_digits <? n)
                  then None
                  else Some (if neg then (- Z.of_N v)%Z else Z.of_N v)
              | _ :: _ => None
              end
          | None => None
          end
      | None => None
      end
  | [] => None
  end.

(** [os.path.join(a, b)] of [posixpath]. *)
Definition path_join (a b : pystr) : pystr :=
  if starts_with (lit "/") b then b
  else if negb (truthy a) || starts_with (lit "/") (reverse a) then a ++ b
  else a ++ lit "/" ++ b.

(** ** Exceptions and results *)

Inductive exn :=
| ValueError (literal : pystr)
    (** [int()] on a string that is no integer literal *)
| HTTPError (status : Z)
    (** [Response.raise_for_status()] *)
| FileNotFoundError (path : pystr)
    (** [open] or [os.remove] on a path that does not exist *)
| AttributeError (name : string)
    (** a method looked up on [None] *)
| Foreign (type_name message : pystr).
    (** raised inside a library, a hosted service or the operating
        system *)

(** [type(e).__name__] *)
Definition exn_type (e : exn) : pystr :=
  match e with
  | ValueError _ => lit "ValueError"
  | HTTPError _ => lit "HTTPError"
  | FileNotFoundError _ => lit "FileNotFoundError"
  | AttributeError _ => lit "AttributeError"
  | Foreign t _ => t
  end.

Inductive result (A : Type) :=
| Ok (a : A)
| Raise (e : exn).
Arguments Ok {A} a.
Arguments Raise {A} e.

Definition is_ok {A} (r : result A) : bool :=
  match r with Ok _ => true | Raise _ => false end.

(** ** The values the services return *)

(** A [requests.Response]: the status, the headers under their
    canonical names, the body. *)
Record Response := {
  status_code : Z;
  headers : gmap string pystr;
  content : bytes
}.

(** The object the speech-to-text call returns.  [asr_attrs] are its
    attributes, each holding [None] or a [str]; [asr_model_dump] is
    [None] when the object has no [model_dump] method, else the dict
    that method returns. *)
Record AsrResponse := {
  asr_attrs : gmap string (option pystr);
  asr_model_dump : option (gmap string (option pystr))
}.

(** What reading an attribute of a library object does: the attribute
    does not exist, it has a value, or it is a property whose getter
    raises something other than [AttributeError]. *)
Inductive attr :=
| AttrMissing
| AttrValue (v : pystr)
| AttrRaises (e : exn).

(** The object [model.generate_content] returns: its [text] attribute
    and its rendering [str(resp)]. *)
Record GenResponse := {
  gen_text : attr;
  gen_str : pystr
}.

(** ** The world: files and the history of external calls *)

Inductive Event :=
| EvGet (url : pystr) (r : result Response)
| EvOpenW (path : pystr) (r : option exn)
| EvWrite (path : pystr) (data : bytes) (r : option exn)
| EvTranscribe (path : pystr) (r : result AsrResponse)
| EvGenerate (prompt : pystr) (r : result GenResponse)
| EvSend (from_ to : option pystr) (body : pystr) (r : option exn)
| EvRemove (path : pystr) (r : option exn)
| EvPrint (text : pystr) (r : option exn)
| EvRespond (json : list (string * pystr)).

Record World := {
  files : gmap pystr bytes;
  trace : list Event
}.

Definition log (ev : Event) (w : World) : World :=
  {| files := files w; trace := trace w ++ [ev] |}.

Definition set_files (f : gmap pystr bytes) (w : World) : World :=
  {| files := f; trace := trace w |}.

(** The environment of one process: configuration read at import time
    and the behaviour of everything outside the program.  An oracle that
    returns [option exn] answers [None] when the call goes through.
    [write_landed] gives the bytes the file holds after a write that
    raised: whatever part of the data reached it.  [print_error] is the
    standard output: a [print] raises when the stream cannot encode the
    text or cannot be written. *)
Record Env := {
  TWILIO_WHATSAPP_FROM : option pystr;
  int_max_str_digits : N;
  gettempdir : pystr;
  uuid4_hex : World -> pystr;
  requests_get : World -> pystr -> result Response;
  open_wb : World -> pystr -> option exn;
  write_close : World -> pystr -> bytes -> option exn;
  write_landed : World -> pystr -> bytes -> bytes;
  speech_to_text_transcribe :
    World -> bytes -> pystr -> pystr -> result AsrResponse;
  generate_content : World -> pystr -> result GenResponse;
  messages_create :
    World -> option pystr -> option pystr -> pystr -> option exn;
  os_remove_error : World -> pystr -> option exn;
  print_error : World -> pystr -> option exn;
  str_exn : exn -> pystr;
  format_exc : exn -> pystr;
  repr_form : gmap string pystr -> pystr
}.

(** ** The state-and-exception monad *)

Definition M (S A : Type) : Type := S -> S * result A.

Definition ret {S A} (a : A) : M S A := fun s => (s, Ok a).

Definition raise {S A} (e : exn) : M S A := fun s => (s, Raise e).

Definition bind {S A B} (m : M S A) (k : A -> M S B) : M S B :=
  fun s =>
    match m s with
    | (s', Ok a) => k a s'
    | (s', Raise e) => (s', Raise e)
    end.

Notation "'let*' x ':=' m 'in' k" := (bind m (fun x => k))
  (at level 10, x name, m at level 100, k at level 200).
Notation "m1 >> m2" := (bind m1 (fun _ => m2))
  (at level 100, m2 at level 200, right associativity).

(** [try: body  except Exception as e: handler e] *)
Definition try_except {S A} (body : M S A) (handler : exn -> M S A) : M S A :=
  fun s =>
    match body s with
    | (s', Raise e) => handler e s'
    | (s', Ok a) => (s', Ok a)
    end.

(** [try: body  finally: final]: [final] always runs; when it raises,
    its exception replaces the outcome of [body]. *)
Definition try_finally {S A} (body : M S A) (final : M S unit) : M S A :=
  fun s =>
    let '(s', r) := body s in
    match final s' with
    | (s'', Ok _) => (s'', r)
    | (s'', Raise e) => (s'', Raise e)
    end.

(** An oracle result is turned into a return or a raise. *)
Definition of_error {S} (o : option exn) : M S unit :=
  match o with
  | None => ret tt
  | Some e => raise e
  end.

Definition of_result {S A} (r : result A) : M S A :=
  match r with
  | Ok a => ret a
  | Raise e => raise e
  end.

Definition emit (ev : Event) : M World unit := fun w => (log ev w, Ok tt).

(** ** Constants of the source *)

(** The prompt of [gemini_fact_check] is the f-string of lines 68-84:
    the text before the transcript and the text after it. *)
Definition prompt_prefix : pystr :=
  [10]
  ++ lit "You are an expert fact-checker for Indian and Tamil Nadu news."
  ++ [10]
  ++ lit "You have access to the latest news up to this moment."
  ++ [10; 10]
  ++ lit "Fact to verify:"
  ++ [10; 34].

Definition prompt_suffix : pystr :=
  [34; 10; 10]
  ++ lit "Tasks:"
  ++ [10]
  ++ lit "1. Search for the latest and most credible news sources related to this fact."
  ++ [10]
  ++ lit "2. Determine if the statement is TRUE, FALSE, or PARTIALLY TRUE."
  ++ [10]
  ++ lit "3. Provide a short, clear explanation in Tamil, citing the sources or reasoning."
  ++ [10]
  ++ lit "4. If unsure, say "
  ++ [34; 224; 174; 164; 224; 174; 8226; 224; 174; 181; 224; 174; 178; 224; 175]
  ++ lit " "
  ++ [224; 174; 170; 224; 175; 8249; 224; 174; 164; 224; 175; 224; 174; 174; 224; 174; 190; 224; 174; 169; 224; 174; 164; 224; 174; 190; 224; 174; 8226]
  ++ lit " "
  ++ [224; 174; 8225; 224; 174; 178; 224; 175; 224; 174; 178; 224; 175; 710; 34]
  ++ lit " (Insufficient information)."
  ++ [10; 10]
  ++ lit "Format:"
  ++ [10]
  ++ lit "Verdict: [TRUE"
  ++ [226; 339; 8230]
  ++ lit " / FALSE"
  ++ [226; 338]
  ++ lit " / PARTIALLY TRUE "
  ++ [240; 376; 8224; 8212]
  ++ lit "/ UNCERTAIN"
  ++ [240; 376; 376]
  ++ lit "]"
  ++ [10]
  ++ lit "Explanation: [2-3 lines in Tamil]"
  ++ [10].

(** The reply of line 113, sent when there is no transcript. *)
Definition REPLY_INSUFFICIENT : pystr :=
  [224; 174; 164; 224; 174; 8226; 224; 174; 181; 224; 174; 178; 224; 175]
  ++ lit " "
  ++ [224; 174; 8226; 224; 174; 191; 224; 174; 376; 224; 175; 710; 224; 174; 8226; 224; 175; 224; 174; 8226; 224; 174; 181; 224; 174; 191; 224; 174; 178; 224; 175; 224; 174; 178; 224; 175; 710]
  ++ lit " "
  ++ [226; 8364; 8221]
  ++ lit " "
  ++ [224; 174; 164; 224; 174; 175; 224; 174; 181; 224; 175; 224; 174; 353; 224; 175; 8224; 224; 174; 175; 224; 175; 224; 174; 164; 224; 175]
  ++ lit " "
  ++ [224; 174; 164; 224; 175; 8224; 224; 174; 179; 224; 174; 191; 224; 174; 181; 224; 174; 190; 224; 174; 8226]
  ++ lit " "
  ++ [224; 174; 8217; 224; 174; 176; 224; 175]
  ++ lit " voice note "
  ++ [224; 174; 8230; 224; 174; 169; 224; 175; 224; 174; 170; 224; 175; 224; 174; 170; 224; 174; 181; 224; 175; 224; 174; 174; 224; 175]
  ++ lit ".".

(** The reply of line 123, sent by the exception handler. *)
Definition REPLY_APOLOGY : pystr :=
  [224; 174; 353; 224; 174; 174; 224; 175; 710; 224; 174; 175; 224; 174; 178; 224; 174; 191; 224; 174; 178; 224; 175]
  ++ lit " "
  ++ [224; 174; 170; 224; 174; 191; 224; 174; 180; 224; 175; 710]
  ++ lit ": "
  ++ [224; 174; 170; 224; 174; 191; 224; 174; 177; 224; 174; 8226; 224; 175]
  ++ lit " "
  ++ [224; 174; 174; 224; 175; 224; 174; 175; 224; 174; 177; 224; 175; 224; 174; 353; 224; 174; 191; 224; 174; 8226; 224; 175; 224; 174; 8226; 224; 174; 181; 224; 175; 224; 174; 174; 224; 175]
  ++ lit ".".

Definition ASR_MODEL : pystr := lit "saarika:v2.5".
Definition ASR_LANGUAGE : pystr := lit "ta-IN".

(** The two JSON bodies the routes return. *)
Definition JSON_ACCEPTED : list (string * pystr) :=
  [("status"%string, lit "accepted")].
Definition JSON_LIVE : list (string * pystr) :=
  [("message"%string, lit "WhatsApp Fake News Checker API is live!")].

(** ** The program *)

(** The extension [download_media] picks from the content type
    (lines 37-43). *)
Definition media_extension (ct : pystr) : pystr :=
  if contains (lit "opus") ct || contains (lit "ogg") ct then lit ".opus"
  else if contains (lit "wav") ct then lit ".wav"
  else if contains (lit "mpeg") ct || contains (lit "mp3") ct then lit ".mp3"
  else lit ".bin".

(** [resp.raise_for_status()] of [requests]: an [HTTPError] for a status
    from 400 to 599, nothing otherwise. *)
Definition raise_for_status {S} (resp : Response) : M S unit :=
  if ((400 <=? status_code resp) && (status_code resp <? 600))%Z
  then raise (HTTPError (status_code resp))
  else ret tt.

(** [getattr(resp, name, None)] *)
Definition asr_getattr (resp : AsrResponse) (name : string) : option pystr :=
  default None (asr_attrs resp !! name).

(** [d.get(key)] *)
Definition dict_get (d : gmap string (option pystr)) (key : string)
  : option pystr :=
  default None (d !! key).

(** The transcript [sarvam_transcribe] draws from a response
    (lines 60-63), before [.strip()]; [{}] stands for a missing
    [model_dump]. *)
Definition extract_transcript (resp : AsrResponse) : option pystr :=
  let transcript :=
    py_or (asr_getattr resp "transcript") (asr_getattr resp "text") in
  if negb (truthy_opt transcript) then
    let d := default ∅ (asr_model_dump resp) in
    py_or (py_or (dict_get d "transcript") (dict_get d "text")) (Some [])
  else transcript.

(** [getattr(resp, "text", str(resp))] *)
Definition gen_getattr_text {S} (resp : GenResponse) : M S pystr :=
  match gen_text resp with
  | AttrValue v => ret v
  | AttrMissing => ret (gen_str resp)
  | AttrRaises e => raise e
  end.

(** The f-string of line 118. *)
Definition reply_text (transcript fact_result : pystr) : pystr :=
  lit "Transcript:" ++ [10] ++ transcript ++ [10; 10]
  ++ lit "Fact-check:" ++ [10] ++ fact_result.

(** The frame of one call of [process_incoming]: the world and the
    local variable [local_path]. *)
Record Frame := {
  world : World;
  local_path : option pystr
}.

Definition lift {A} (m : M World A) : M Frame A :=
  fun fr =>
    let '(w, r) := m (world fr) in
    ({| world := w; local_path := local_path fr |}, r).

Definition set_local_path (p : pystr) : M Frame unit :=
  fun fr => ({| world := world fr; local_path := Some p |}, Ok tt).

Definition get_local_path : M Frame (option pystr) :=
  fun fr => (fr, Ok (local_path fr)).

(** What [background_tasks.add_task] records: the callable is always
    [process_incoming], with its four arguments. *)
Inductive Task :=
| ProcessIncoming (from_number body num_media media_url : option pystr).

Section Program.

Variable env : Env.

(** [print(text)]: the text goes to the standard output, or the
    write raises. *)
Definition print (text : pystr) : M World unit :=
  fun w =>
    let r := print_error env w text in
    of_error r (log (EvPrint text r) w).

(** [requests.get(url, auth=auth)] *)
Definition call_requests_get (url : pystr) : M World Response :=
  fun w =>
    let r := requests_get env w url in
    of_result r (log (EvGet url r) w).

(** [open(path, "wb")]: the file is created, or emptied when it exists. *)
Definition call_open_wb (path : pystr) : M World unit :=
  fun w =>
    let r := open_wb env w path in
    let w' := log (EvOpenW path r) w in
    match r with
    | None => (set_files (<[path := []]> (files w')) w', Ok tt)
    | Some e => (w', Raise e)
    end.

(** [f.write(data)] and the close at the end of the [with] block.  When
    one of them raises, the file is closed all the same and holds what
    had reached it. *)
Definition call_write (path : pystr) (data : bytes) : M World unit :=
  fun w =>
    let r := write_close env w path data in
    let w' := log (EvWrite path data r) w in
    match r with
    | None => (set_files (<[path := data]> (files w')) w', Ok tt)
    | Some e =>
        (set_files (<[path := write_landed env w path data]> (files w')) w',
         Raise e)
    end.

(** [open(file_path, "rb")] and [sarvam.speech_to_text.transcribe]. *)
Definition call_transcribe (file_path : pystr) : M World AsrResponse :=
  fun w =>
    match files w !! file_path with
    | None => (w, Raise (FileNotFoundError file_path))
    | Some data =>
        let r := speech_to_text_transcribe env w data ASR_MODEL ASR_LANGUAGE in
        of_result r (log (EvTranscribe file_path r) w)
    end.

(** [model.generate_content(prompt)] *)
Definition call_generate_content (prompt : pystr) : M World GenResponse :=
  fun w =>
    let r := generate_content env w prompt in
    of_result r (log (EvGenerate prompt r) w).

(** [os.path.exists(path)] *)
Definition os_path_exists (path : pystr) : M World bool :=
  fun w => (w, Ok (bool_decide (is_Some (files w !! path)))).

(** [os.remove(path)] *)
Definition os_remove (path : pystr) : M World unit :=
  fun w =>
    let r :=
      match os_remove_error env w path with
      | Some e => Some e
      | None =>
          match files w !! path with
          | Some _ => None
          | None => Some (FileNotFoundError path)
          end
      end in
    let w' := log (EvRemove path r) w in
    match r with
    | None => (set_files (delete path (files w')) w', Ok tt)
    | Some e => (w', Raise e)
    end.

(** [download_media], lines 30-50. *)
Definition download_media (url : pystr) : M World pystr :=
  let* resp := call_requests_get url in
  raise_for_status resp >>
  let ct := default [] (headers resp !! "Content-Type"%string) in
  let ext := media_extension ct in
  let* path := (fun w =>
    (w, Ok (path_join (gettempdir env) (uuid4_hex env w ++ ext)))) in
  call_open_wb path >>
  call_write path (content resp) >>
  ret path.

(** [sarvam_transcribe], lines 52-64. *)
Definition sarvam_transcribe (file_path : pystr) : M World pystr :=
  let* resp := call_transcribe file_path in
  match extract_transcript resp with
  | Some transcript => ret (strip transcript)
  | None => raise (AttributeError "strip")
  end.

(** [gemini_fact_check], lines 66-86. *)
Definition gemini_fact_check (transcript : pystr) : M World pystr :=
  let prompt := prompt_prefix ++ transcript ++ prompt_suffix in
  let* resp := call_generate_content prompt in
  gen_getattr_text resp.

(** [send_whatsapp_reply], lines 88-94. *)
Definition send_whatsapp_reply (to : option pystr) (text : pystr)
  : M World unit :=
  fun w =>
    let r := messages_create env w (TWILIO_WHATSAPP_FROM env) to text in
    of_error r (log (EvSend (TWILIO_WHATSAPP_FROM env) to text r) w).

(** The condition of line 106,
    [num_media and int(num_media) > 0 and media_url], as a truth value. *)
Definition media_present (num_media media_url : option pystr) : M Frame bool :=
  if truthy_opt num_media then
    match py_int (int_max_str_digits env) (default [] num_media) with
    | Some n => ret ((0 <? n)%Z && truthy_opt media_url)
    | None => raise (ValueError (default [] num_media))
    end
  else ret false.

(** The first half of the [try] block of [process_incoming], lines
    106-110: the value of the variable [transcript]. *)
Definition resolve_transcript (body num_media media_url : option pystr)
  : M Frame pystr :=
  let* use_media := media_present num_media media_url in
  if use_media then
    let* path := lift (download_media (default [] media_url)) in
    set_local_path path >>
    lift (sarvam_transcribe path)
  else ret (strip (default [] (py_or body (Some [])))).

(** The second half of the [try] block, lines 112-118. *)
Definition check_and_reply (from_number : option pystr) (transcript : pystr)
  : M Frame unit :=
  if negb (truthy transcript) then
    lift (send_whatsapp_reply from_number REPLY_INSUFFICIENT)
  else
    let* fact_result := lift (gemini_fact_check transcript) in
    lift (send_whatsapp_reply from_number
            (reply_text transcript fact_result)).

(** The [try] block of [process_incoming], lines 106-118. *)
Definition process_incoming_try
    (from_number body num_media media_url : option pystr) : M Frame unit :=
  let* transcript := resolve_transcript body num_media media_url in
  check_and_reply from_number transcript.

(** The text of line 121, with [str(e)] and [traceback.format_exc()]
    taken from the environment. *)
Definition error_msg (e : exn) : pystr :=
  lit "Processing error: " ++ exn_type e ++ lit " - " ++ str_exn env e
  ++ [10] ++ format_exc env e.

(** The [except Exception as e] block, lines 120-123. *)
Definition process_incoming_except (from_number : option pystr) (e : exn)
  : M Frame unit :=
  lift (print (error_msg e)) >>
  lift (send_whatsapp_reply from_number REPLY_APOLOGY).

(** The [finally] block, lines 125-130. *)
Definition process_incoming_finally : M Frame unit :=
  let* path := get_local_path in
  if truthy_opt path then
    let* there := lift (os_path_exists (default [] path)) in
    if there then
      try_except (lift (os_remove (default [] path))) (fun _ => ret tt)
    else ret tt
  else ret tt.

(** [process_incoming], lines 96-130. *)
Definition process_incoming
    (from_number body num_media media_url : option pystr) : M World unit :=
  fun w =>
    let '(fr, r) :=
      try_finally
        (try_except
           (process_incoming_try from_number body num_media media_url)
           (process_incoming_except from_number))
        process_incoming_finally
        {| world := w; local_path := None |} in
    (world fr, r).

(** [root], lines 133-135. *)
Definition root : M World (list (string * pystr)) := ret JSON_LIVE.

(** [twilio_webhook], lines 137-150, on the parsed form and the task
    list of the [BackgroundTasks] object; it returns the JSON body and
    the task list as it leaves it. *)
Definition twilio_webhook (form : gmap string pystr)
    (background_tasks : list Task)
  : M World (list (string * pystr) * list Task) :=
  print (lit "Incoming webhook data: " ++ repr_form env form) >>
  let from_number := form !! "From"%string in
  let body := Some (default [] (form !! "Body"%string)) in
  let num_media := Some (default (lit "0") (form !! "NumMedia"%string)) in
  let media_url := form !! "MediaUrl0"%string in
  let background_tasks :=
    background_tasks
    ++ [ProcessIncoming from_number body num_media media_url] in
  ret (JSON_ACCEPTED, background_tasks).

(** Running a recorded task is calling [process_incoming] on the
    recorded arguments. *)
Definition run_task (t : Task) : M World unit :=
  match t with
  | ProcessIncoming from_number body num_media media_url =>
      process_incoming from_number body num_media media_url
  end.

(** Modelled from the spec: the [BackgroundTasks] object belongs to the
    web framework, which is not part of the repository.  The scheduled
    work runs as background units, here in the order of their recording;
    an exception that leaves one of them ends the run. *)
Fixpoint run_tasks (ts : list Task) : M World unit :=
  match ts with
  | [] => ret tt
  | t :: ts' => run_task t >> run_tasks ts'
  end.

(** Modelled from the spec: the web framework that calls the handler is
    not part of the repository.  Sections 4.6 and 5 of the specification
    describe its part: the handler schedules the Orchestrator out-of-band
    and the acknowledgement is returned without waiting for it; the
    Orchestrator then runs as a detached unit of work.  One POST is thus:
    run the handler on a fresh task list, send its response, then run
    the scheduled tasks.  When the handler raises, its task list is lost
    with it: no acknowledgement is sent and nothing is run. *)
Definition serve_twilio_webhook (form : gmap string pystr) : M World unit :=
  let* answer := twilio_webhook form [] in
  emit (EvRespond answer.1) >>
  run_tasks answer.2.

End Program.

(** ** What a run shows: projections of the history *)

(** The events a run added: those of [w'] after the history of [w]. *)
Definition events_since (w w' : World) : list Event :=
  drop (length (trace w)) (trace w').

(** The URLs [download_media] fetched; each call of [download_media]
    starts with one [requests.get]. *)
Definition gets (t : list Event) : list pystr :=
  omap (fun ev => match ev with EvGet u _ => Some u | _ => None end) t.

(** The prompts [gemini_fact_check] submitted, one for each call. *)
Definition generate_calls (t : list Event) : list pystr :=
  omap (fun ev => match ev with EvGenerate p _ => Some p | _ => None end) t.

(** The calls of [send_whatsapp_reply]: destination and text. *)
Definition send_calls (t : list Event) : list (option pystr * pystr) :=
  omap (fun ev =>
          match ev with EvSend _ to b _ => Some (to, b) | _ => None end) t.

(** The calls of [send_whatsapp_reply] the messaging service accepted. *)
Definition delivered (t : list Event) : list (option pystr * pystr) :=
  omap (fun ev =>
          match ev with EvSend _ to b None => Some (to, b) | _ => None end) t.

(** The paths [open(path, "wb")] created. *)
Definition created (t : list Event) : list pystr :=
  omap (fun ev => match ev with EvOpenW p None => Some p | _ => None end) t.

(** The calls of [os.remove], each with its error if it raised. *)
Definition removals (t : list Event) : list (pystr * option exn) :=
  omap (fun ev => match ev with EvRemove p r => Some (p, r) | _ => None end) t.

(** Events that concern neither the fact-check, nor the reply, nor the
    deletion. *)
Definition silent (evs : list Event) : Prop :=
  generate_calls evs = [] ∧ send_calls evs = [] ∧ removals evs = [].

(** What a call that reported [o] amounts to: a return or a raise. *)
Definition outcome (o : option exn) : result unit :=
  match o with
  | None => Ok tt
  | Some e => Raise e
  end.

(** A stage that went from [fr] to [fr'] by the events [evs] and touched
    neither the files nor [local_path], and fetched nothing. *)
Definition keeps (fr fr' : Frame) (evs : list Event) : Prop :=
  trace (world fr') = trace (world fr) ++ evs
  ∧ files (world fr') = files (world fr)
  ∧ local_path fr' = local_path fr
  ∧ gets evs = [] ∧ created evs = [] ∧ removals evs = [].

(** ** The specification's words *)

(** "A small ordered list of extraction strategies tried in sequence,
    stopping at first non-empty result"; the empty string if none. *)
Fixpoint first_nonempty (l : list (option pystr)) : pystr :=
  match l with
  | [] => []
  | Some (c :: s) :: _ => c :: s
  | _ :: l' => first_nonempty l'
  end.

(** The strategies of section 4.2 in their order: the two attributes,
    then the two fields of the structured dump. *)
Definition asr_strategies (resp : AsrResponse) : list (option pystr) :=
  let d := default ∅ (asr_model_dump resp) in
  [asr_getattr resp "transcript"; asr_getattr resp "text";
   dict_get d "transcript"; dict_get d "text"].

(** The response carries field [name] with value [v]: as an attribute
    or in its structured dump, and with no other value in either. *)
Definition asr_field_is (resp : AsrResponse) (name : string) (v : pystr)
  : Prop :=
  let d := default ∅ (asr_model_dump resp) in
  (asr_getattr resp name = Some v ∨ dict_get d name = Some v)
  ∧ (asr_getattr resp name = None ∨ asr_getattr resp name = Some v)
  ∧ (dict_get d name = None ∨ dict_get d name = Some v).

(** The response carries no field [name], neither way. *)
Definition asr_field_absent (resp : AsrResponse) (name : string) : Prop :=
  asr_getattr resp name = None
  ∧ dict_get (default ∅ (asr_model_dump resp)) name = None.

(** A string of white space only. *)
Definition blank (l : pystr) : Prop :=
  Forall (fun c => py_isspace c = true) l.

(** A content type "mentions" a word: the word occurs in it. *)
Definition mentions (ct word : pystr) : Prop :=
  ∃ l r, ct = l ++ word ++ r.

(** A media attachment is declared: [num_media] reads as a positive
    integer. *)
Definition media_declared (env : Env) (num_media : option pystr) : Prop :=
  ∃ s n, num_media = Some s ∧ s ≠ []
         ∧ py_int (int_max_str_digits env) s = Some n ∧ (0 < n)%Z.

(** The frame in which [process_incoming] starts. *)
Definition frame0 (w : World) : Frame := {| world := w; local_path := None |}.

(** ** The claims the code does not meet, as stated *)

(** C1 as stated: whenever a step of the [try] block raises,
    [process_incoming] returns normally and exactly one reply went out,
    the apology. *)
Definition claim_C1 (env : Env) (w : World)
    (from_number body num_media media_url : option pystr) : Prop :=
  ∀ fr e,
    process_incoming_try env from_number body num_media media_url (frame0 w)
      = (fr, Raise e) →
    let out := process_incoming env from_number body num_media media_url w in
    out.2 = Ok tt
    ∧ delivered (events_since w out.1) = [(from_number, REPLY_APOLOGY)].

(** C2 as stated: whenever the transcript resolves to the empty string,
    the fact-check is not called, the one reply is the insufficient-content
    text, and nothing else follows. *)
Definition claim_C2 (env : Env) (w : World)
    (from_number body num_media media_url : option pystr) : Prop :=
  ∀ fr,
    resolve_transcript env body num_media media_url (frame0 w) = (fr, Ok []) →
    let out := process_incoming env from_number body num_media media_url w in
    generate_calls (events_since w out.1) = []
    ∧ send_calls (events_since w out.1) = [(from_number, REPLY_INSUFFICIENT)]
    ∧ out.2 = Ok tt.

(** C4 as stated: with media declared and a URL present, one fetch, and
    every file the fetch created is gone at the end; the clause on
    deletion errors is read in favour of the claim: a file whose deletion
    raised may stay. *)
Definition claim_C4 (env : Env) (w : World)
    (from_number body num_media media_url : option pystr) : Prop :=
  media_declared env num_media → truthy_opt media_url = true →
  let out := process_incoming env from_number body num_media media_url w in
  length (gets (events_since w out.1)) = 1%nat
  ∧ ∀ p, p ∈ created (events_since w out.1) →
         files out.1 !! p = None
         ∨ ∃ e, (p, Some e) ∈ removals (events_since w out.1).

(** C6 as stated, second half: a response whose status is not a success
    (not 2xx) makes [download_media] raise, and no file is created. *)
Definition claim_C6_status (env : Env) (w : World) (url : pystr) : Prop :=
  ∀ resp,
    requests_get env w url = Ok resp →
    ¬ (200 <= status_code resp < 300)%Z →
    let out := download_media env url w in
    is_ok out.2 = false ∧ created (events_since w out.1) = [].

(** C8 as stated: every POST is acknowledged, and no call of the
    pipeline precedes the acknowledgement. *)
Definition claim_C8 (env : Env) (w : World) (form : gmap string pystr)
  : Prop :=
  ∃ pre post,
    events_since w (serve_twilio_webhook env form w).1
    = pre ++ [EvRespond JSON_ACCEPTED] ++ post
    ∧ gets pre = [] ∧ silent pre.

(** C9 as stated: whenever [num_media] is a non-empty string that
    [int()] rejects, the run sends the apology to the sender, and the
    body is not used: nothing is submitted to the fact-check. *)
Definition claim_C9 (env : Env) (w : World)
    (from_number body media_url : option pystr) (s : pystr) : Prop :=
  s ≠ [] →
  py_int (int_max_str_digits env) s = None →
  let out := process_incoming env from_number body (Some s) media_url w in
  (from_number, REPLY_APOLOGY) ∈ send_calls (events_since w out.1)
  ∧ generate_calls (events_since w out.1) = [].

(** ** Sample environments *)

Definition sample_audio : bytes := [Byte.x4f; Byte.x67; Byte.x67; Byte.x53].

Definition sample_response (status : Z) (ct : string) : Response :=
  {| status_code := status;
     headers := {[ "Content-Type"%string := lit ct ]};
     content := sample_audio |}.

Definition sample_asr (text : string) : AsrResponse :=
  {| asr_attrs := {[ "text"%string := Some (lit text) ]};
     asr_model_dump := None |}.

Definition sample_gen : GenResponse :=
  {| gen_text := AttrValue (lit "Verdict: TRUE");
     gen_str := lit "response:" |}.

Definition sample_error : exn := Foreign (lit "OSError") (lit "failed").

Definition has_send (t : list Event) : bool :=
  match send_calls t with [] => false | _ :: _ => true end.

(** An environment in which the download answers [resp], the write ends
    as [write] (leaving the file empty when it raises), the transcription
    answers [asr], the generative model answers [gen], the messaging
    service answers by [send], the deletion ends as [rm] and every
    [print] goes through. *)
Definition sample_env (resp : Response) (write : option exn)
    (asr : AsrResponse) (gen : GenResponse)
    (send : World -> option exn) (rm : option exn) : Env :=
  {| TWILIO_WHATSAPP_FROM := Some (lit "whatsapp:+14155238886");
     int_max_str_digits := 4300;
     gettempdir := lit "/tmp";
     uuid4_hex := fun _ => lit "0123456789abcdef0123456789abcdef";
     requests_get := fun _ _ => Ok resp;
     open_wb := fun _ _ => None;
     write_close := fun _ _ _ => write;
     write_landed := fun _ _ _ => [];
     speech_to_text_transcribe := fun _ _ _ _ => Ok asr;
     generate_content := fun _ _ => Ok gen;
     messages_create := fun w _ _ _ => send w;
     os_remove_error := fun _ _ => rm;
     print_error := fun _ _ => None;
     str_exn := fun _ => [];
     format_exc := fun _ => [];
     repr_form := fun _ => [] |}.

Definition send_ok (w : World) : option exn := None.
Definition send_down (w : World) : option exn :=
  Some (Foreign (lit "TwilioRestException") (lit "unreachable")).
Definition send_fails_once (w : World) : option exn :=
  if has_send (trace w) then None else send_down w.

Definition env_ok : Env :=
  sample_env (sample_response 200 "audio/ogg") None (sample_asr " hello ")
    sample_gen send_ok None.

Definition env_send_down : Env :=
  sample_env (sample_response 200 "audio/ogg") None (sample_asr " hello ")
    sample_gen send_down None.

Definition env_send_fails_once : Env :=
  sample_env (sample_response 200 "audio/ogg") None (sample_asr " hello ")
    sample_gen send_fails_once None.

Definition env_write_fails : Env :=
  sample_env (sample_response 200 "audio/ogg") (Some sample_error)
    (sample_asr " hello ") sample_gen send_ok None.

Definition env_remove_fails : Env :=
  sample_env (sample_response 200 "audio/ogg") None (sample_asr " hello ")
    sample_gen send_ok (Some sample_error).

Definition env_multiple_choices : Env :=
  sample_env (sample_response 300 "audio/ogg") None (sample_asr " hello ")
    sample_gen send_ok None.

Definition env_not_found : Env :=
  sample_env (sample_response 404 "text/html") None (sample_asr " hello ")
    sample_gen send_ok None.

Definition env_text_missing : Env :=
  sample_env (sample_response 200 "audio/ogg") None (sample_asr " hello ")
    {| gen_text := AttrMissing; gen_str := lit "response:" |} send_ok None.

(** [env] with another standard output. *)
Definition with_print_error (f : World -> pystr -> option exn) (env : Env)
  : Env :=
  {| TWILIO_WHATSAPP_FROM := TWILIO_WHATSAPP_FROM env;
     int_max_str_digits := int_max_str_digits env;
     gettempdir := gettempdir env;
     uuid4_hex := uuid4_hex env;
     requests_get := requests_get env;
     open_wb := open_wb env;
     write_close := write_close env;
     write_landed := write_landed env;
     speech_to_text_transcribe := speech_to_text_transcribe env;
     generate_content := generate_content env;
     messages_create := messages_create env;
     os_remove_error := os_remove_error env;
     print_error := f;
     str_exn := str_exn env;
     format_exc := format_exc env;
     repr_form := repr_form env |}.

(** [env] with another account of what a failed write leaves. *)
Definition with_write_landed (f : World -> pystr -> bytes -> bytes)
    (env : Env) : Env :=
  {| TWILIO_WHATSAPP_FROM := TWILIO_WHATSAPP_FROM env;
     int_max_str_digits := int_max_str_digits env;
     gettempdir := gettempdir env;
     uuid4_hex := uuid4_hex env;
     requests_get := requests_get env;
     open_wb := open_wb env;
     write_close := write_close env;
     write_landed := f;
     speech_to_text_transcribe := speech_to_text_transcribe env;
     generate_content := generate_content env;
     messages_create := messages_create env;
     os_remove_error := os_remove_error env;
     print_error := print_error env;
     str_exn := str_exn env;
     format_exc := format_exc env;
     repr_form := repr_form env |}.

(** A standard output that cannot encode what it is given. *)
Definition stdout_error : exn :=
  Foreign (lit "UnicodeEncodeError") (lit "codec can't encode characters").

Definition env_print_fails : Env :=
  with_print_error (fun _ _ => Some stdout_error) env_ok.

(** The write raises after the first two bytes reached the file. *)
Definition env_write_partial : Env :=
  with_write_landed (fun _ _ data => take 2 data) env_write_fails.

Definition world0 : World := {| files := ∅; trace := [] |}.

Definition sender : option pystr := Some (lit "whatsapp:+911234567890").
Definition sample_url : option pystr :=
  Some (lit "https://api.twilio.com/media/ME0").
Definition sample_path : pystr :=
  lit "/tmp/0123456789abcdef0123456789abcdef.opus".

Definition world_audio : World :=
  {| files := {[ sample_path := sample_audio ]}; trace := [] |}.

(** The body of the example of section 8 of the specification. *)
Definition tamil_question : pystr :=
  [2951; 2980; 3009; 32; 2953; 2979; 3021; 2990; 3016; 2991; 3006; 63].

Definition sample_form : gmap string pystr :=
  {[ "From"%string := lit "whatsapp:+911234567890";
     "Body"%string := lit "hi";
     "NumMedia"%string := lit "0" ]}.

(** ** Further projections and conditions *)

(** The calls of [print], each with its error if it raised. *)
Definition print_calls (t : list Event) : list (pystr * option exn) :=
  omap (fun ev => match ev with EvPrint x r => Some (x, r) | _ => None end) t.

(** The texts [print] wrote: those of the calls that returned. *)
Definition prints (t : list Event) : list pystr :=
  omap (fun ev => match ev with EvPrint x None => Some x | _ => None end) t.

(** The events of the input resolution: the request, the two file
    operations of [download_media] and the transcription call. *)
Definition fetch_event (ev : Event) : Prop :=
  match ev with
  | EvGet _ _ | EvOpenW _ _ | EvWrite _ _ _ | EvTranscribe _ _ => True
  | _ => False
  end.

(** The condition of line 106 is false, and [int()] did not raise:
    [num_media] is [None] or empty, or it reads as an integer that is not
    positive, or it reads as an integer and [media_url] is [None] or
    empty. *)
Definition no_media (env : Env) (num_media media_url : option pystr) : Prop :=
  truthy_opt num_media = false
  ∨ ∃ n, py_int (int_max_str_digits env) (default [] num_media) = Some n
         ∧ ((n <= 0)%Z ∨ truthy_opt media_url = false).

(** What the input resolution did when it went from the world [w] to
    the frame [fr] with the result [r] by the events [evs]: only a path it
    created can differ in the files; a path held in [local_path] is the
    one it created, and its file is in place; if no write fails, a path
    it created is held in [local_path]; the transcript is trimmed. *)
Definition resolution (env : Env) (w : World) (fr : Frame)
    (r : result pystr) (evs : list Event) : Prop :=
  trace (world fr) = trace w ++ evs
  ∧ Forall fetch_event evs
  ∧ (∀ q, q ∉ created evs → files (world fr) !! q = files w !! q)
  ∧ (∀ p, local_path fr = Some p →
          created evs = [p] ∧ p ≠ [] ∧ is_Some (files (world fr) !! p))
  ∧ ((∀ w' p data, write_close env w' p data = None) →
     ∀ p, p ∈ created evs → local_path fr = Some p)
  ∧ (∀ t, r = Ok t → strip t = t).

(** [r] is what the messaging service answered to a send of [text] to
    [to], in some world. *)
Definition sent_by (env : Env) (to : option pystr) (text : pystr)
    (r : option exn) : Prop :=
  ∃ w, r = messages_create env w (TWILIO_WHATSAPP_FROM env) to text.

(** The four extensions of lines 37-43. *)
Definition MEDIA_EXTENSIONS : list pystr :=
  [lit ".opus"; lit ".wav"; lit ".mp3"; lit ".bin"].

(** ** The script [main.py] *)

(** [str(x)] for [x] that is [None] or a [str], as [print] and an
    f-string render it. *)
Definition py_str (o : option pystr) : pystr := default (lit "None") o.

(** The f-string of lines 32-48 of [main.py]: the text before the
    transcript and the text after it. *)
Definition main_prompt_prefix : pystr :=
  [10]
  ++ lit "You are an expert fact-checker for Indian and Tamil Nadu news."
  ++ [10]
  ++ lit "You have access to the latest news up to this moment."
  ++ [10; 10]
  ++ lit "Fact to verify:"
  ++ [10; 34].

Definition main_prompt_suffix : pystr :=
  [34; 10; 10]
  ++ lit "Tasks:"
  ++ [10]
  ++ lit "1. Search for the latest and most credible news sources related to this fact."
  ++ [10]
  ++ lit "2. Determine if the statement is TRUE, FALSE, or PARTIALLY TRUE."
  ++ [10]
  ++ lit "3. Provide a short, clear explanation in Tamil, citing the sources or reasoning."
  ++ [10]
  ++ lit "4. If unsure, say "
  ++ [34; 2980; 2965; 2997; 2994; 3021]
  ++ lit " "
  ++ [2986; 3019; 2980; 3009; 2990; 3006; 2985; 2980; 3006; 2965]
  ++ lit " "
  ++ [2951; 2994; 3021; 2994; 3016; 34]
  ++ lit " (Insufficient information)."
  ++ [10; 10]
  ++ lit "Format:"
  ++ [10]
  ++ lit "Verdict: [TRUE / FALSE / PARTIALLY TRUE / UNCERTAIN]"
  ++ [10]
  ++ lit "Explanation: [2-3 lines in Tamil]"
  ++ [10].

(** The file name of line 17 of [main.py]. *)
Definition MAIN_AUDIO_FILE : pystr := lit "your_file.wav".

(** [response.text] of line 52 of [main.py]: an attribute read without
    default. *)
Definition gen_text_attr {S} (resp : GenResponse) : M S pystr :=
  match gen_text resp with
  | AttrValue v => ret v
  | AttrMissing => raise (AttributeError "text")
  | AttrRaises e => raise e
  end.

(** [main.py], lines 17-52.  The client of line 14 and the model of
    lines 29-30 are taken as constructed. *)
Definition main (env : Env) : M World unit :=
  let* response := call_transcribe env MAIN_AUDIO_FILE in
  let transcript :=
    py_or (asr_getattr response "transcript") (asr_getattr response "text") in
  print env (lit "Transcript: " ++ py_str transcript) >>
  let fact_check_prompt :=
    main_prompt_prefix ++ py_str transcript ++ main_prompt_suffix in
  let* response := call_generate_content env fact_check_prompt in
  print env ([10] ++ lit "--- FACT CHECK RESULT ---") >>
  let* text := gen_text_attr response in
  print env text.

(** ** The script [test_twilio.py] *)

(** [test_twilio.py], lines 11-19, with the client of line 9 taken as
    constructed; [message_sid] is the rendering of [message.sid] of the
    message the service created.  The [print] of line 17 is inside the
    [try] block, the one of line 19 is the handler. *)
Definition test_twilio (env : Env) (message_sid : World -> pystr)
  : M World unit :=
  try_except
    (fun w =>
       let r := messages_create env w (Some (lit "whatsapp:+14155238886"))
                  (Some (lit "whatsapp:"))
                  (lit "Test message from Twilio API") in
       let w' := log (EvSend (Some (lit "whatsapp:+14155238886"))
                        (Some (lit "whatsapp:"))
                        (lit "Test message from Twilio API") r) w in
       match r with
       | None => print env (lit "Message sent! SID: " ++ message_sid w') w'
       | Some e => (w', Raise e)
       end)
    (fun e => print env (lit "Error sending message: " ++ str_exn env e)).

(** ** More sample environments *)

Definition env_no_transcript : Env :=
  sample_env (sample_response 200 "audio/ogg") None
    {| asr_attrs := ∅; asr_model_dump := None |} sample_gen send_ok None.

Definition env_blank_transcript : Env :=
  sample_env (sample_response 200 "audio/ogg") None
    {| asr_attrs := {[ "transcript"%string := Some (lit "  ");
                       "text"%string := Some (lit "hello") ]};
       asr_model_dump := None |} sample_gen send_ok None.

Definition world_main : World :=
  {| files := {[ MAIN_AUDIO_FILE := sample_audio ]}; trace := [] |}.

Definition form_without_num_media : gmap string pystr :=
  {[ "From"%string := lit "whatsapp:+911234567890";
     "Body"%string := lit " hi ";
     "MediaUrl0"%string := lit "https://api.twilio.com/media/ME0" ]}.

(** ** Proof steps *)

(** Projections of worlds and frames built by the program. *)
Ltac frame_simpl :=
  cbn [trace files log set_files world local_path frame0 fst snd].

(** A stage that only logged events kept the frame. *)
Ltac keeps_tac :=
  unfold keeps; frame_simpl;
  split; [rewrite <- ?app_assoc; reflexivity | by repeat split].

(** The cases of what followed the [try] block, from
    [process_incoming_after_try]: it returned, or the handler ran and its
    print returned or raised. *)
Ltac handler_cases H :=
  cbv zeta in H; cbn [outcome] in H;
  repeat match type of H with
         | match ?x with _ => _ end => destruct x
         end;
  destruct H as [-> ?Hout].

(** The cases of the handler alone, from [process_incoming_shape]. *)
Ltac shape_handler Hh :=
  first [ destruct Hh as [-> ?Hout]
        | destruct Hh as [(?e & ?Hprint & -> & ?Hout)
                         |(?r & ?Hprint & -> & ?Hout & ?Hsent)] ].

(** Steps of a script: one [print], by what the standard output did. *)
Ltac print_cases :=
  repeat match goal with
         | |- context [print_error ?env ?w ?t] =>
             let Hp := fresh "Hp" in
             destruct (print_error env w t) eqn:Hp;
             cbn [of_error of_result ret raise fst snd]
         end.

Ltac print_cases_in H :=
  repeat match type of H with
         | context [print_error ?env ?w ?t] =>
             destruct (print_error env w t);
             cbn [of_error of_result ret raise fst snd] in H
         end.

(** Projections of explicit histories, with the texts left folded. *)
Ltac proj_simpl :=
  cbn [gets generate_calls send_calls delivered created removals prints
       print_calls omap list_omap app length last fst snd outcome is_ok] in *.

(** The cases of a run, from [process_incoming_shape]. *)
Ltac run_cases Hc Hh Hf :=
  match type of Hc with
  | match ?r0 with Ok _ => _ | Raise _ => _ end =>
      destruct r0 as [?t|?e];
      [ destruct Hc as [[-> (?r & -> & -> & ?Hsent)]
                       |[?Hne (?g & [(?e & -> & ->)
                                    |(?fact & ?r & -> & -> & ?Hsent)])]]
      | destruct Hc as [-> ->] ]
  end;
  repeat match type of Hh with
         | match outcome ?r with Ok _ => _ | Raise _ => _ end =>
             destruct r; cbn [outcome] in Hh
         end;
  first [ destruct Hh as [-> ?Hout]
        | destruct Hh as [(?e & ?Hprint & -> & ?Hout)
                         |([?e|] & ?Hprint & -> & ?Hout & ?Hsent)];
          cbn [outcome] in * ];
  destruct Hf as [[-> ?Hfiles]
                 |[(?p & ?e & ?Hlp & -> & ?Hfiles)|(?p & ?Hlp & -> & ?Hfiles)]].

(** * Properties *)

(** ** Strings *)

Section Strings.

Implicit Types (s p t : pystr) (c : N).

Lemma starts_with_spec p s : starts_with p s = true ↔ ∃ r, s = p ++ r.
Proof.
  revert s; induction p as [|a p IH]; intros s; simpl.
  - split; [intros _; by exists s | done].
  - destruct s as [|b s].
    + split; [done | intros [r Hr]; discriminate].
    + rewrite andb_true_iff, N.eqb_eq, IH. split.
      * intros [-> [r ->]]. by exists r.
      * intros [r Hr]. injection Hr as -> ->. eauto.
Qed.

(** [p in s] is the substring relation. *)
Lemma contains_spec p s : contains p s = true ↔ mentions s p.
Proof.
  unfold mentions. induction s as [|b s IH].
  - simpl. rewrite orb_false_r, starts_with_spec. split.
    + intros [r Hr]. by exists [], r.
    + intros [l [r Hr]]. destruct l; [eauto | discriminate].
  - cbn [contains]. rewrite orb_true_iff, starts_with_spec, IH. split.
    + intros [[r Hr] | [l [r Hr]]].
      * by exists [], r.
      * exists (b :: l), r. by rewrite Hr.
    + intros [l [r Hr]]. destruct l as [|b' l].
      * left. by exists r.
      * right. injection Hr as _ ->. eauto.
Qed.

Lemma contains_false p s : contains p s = false ↔ ¬ mentions s p.
Proof. rewrite <- contains_spec. by destruct (contains p s). Qed.

Lemma lstrip_spec s :
  ∃ l, s = l ++ lstrip s ∧ blank l
       ∧ ∀ c, head (lstrip s) = Some c → py_isspace c = false.
Proof.
  induction s as [|c s (l & Hs & Hl & Hh)]; simpl.
  - exists []. split; [done|]. split; [constructor | done].
  - destruct (py_isspace c) eqn:Hc.
    + exists (c :: l). split; [simpl; congruence|].
      split; [by constructor | done].
    + exists []. split; [done|]. split; [constructor|].
      simpl. by intros ? [= <-].
Qed.

Lemma lstrip_nil_blank s : blank s → lstrip s = [].
Proof.
  induction 1 as [|c s Hc _ IH]; simpl; [done|]. by rewrite Hc.
Qed.

(** [strip] removes a blank prefix and a blank suffix, and what is left
    neither starts nor ends with white space. *)
Lemma strip_spec s :
  ∃ l r, s = l ++ strip s ++ r ∧ blank l ∧ blank r
         ∧ (∀ c, head (strip s) = Some c → py_isspace c = false)
         ∧ (∀ c, last (strip s) = Some c → py_isspace c = false).
Proof.
  destruct (lstrip_spec s) as (l & Hs & Hl & Hh).
  destruct (lstrip_spec (reverse (lstrip s))) as (r & Hr & Hbr & Hhr).
  assert (Ht : lstrip s = strip s ++ reverse r).
  { unfold strip, rstrip. rewrite <- reverse_app, <- Hr.
    by rewrite reverse_involutive. }
  exists l, (reverse r). repeat split.
  - by rewrite <- Ht.
  - done.
  - unfold blank. by rewrite Forall_reverse.
  - intros c Hc. apply Hh. rewrite Ht.
    destruct (strip s); [done | by simplify_eq/=].
  - intros c Hc. apply Hhr. fold (rstrip (lstrip s)) in Hc.
    unfold strip, rstrip in Hc. by rewrite last_reverse in Hc.
Qed.

Lemma strip_nil : strip [] = [].
Proof. reflexivity. Qed.

(** A string that neither starts nor ends with white space is its own
    trimmed form. *)
Lemma strip_fixed s :
  (∀ c, head s = Some c → py_isspace c = false) →
  (∀ c, last s = Some c → py_isspace c = false) →
  strip s = s.
Proof.
  intros Hh Hl.
  assert (Hfix : ∀ t, (∀ c, head t = Some c → py_isspace c = false) →
                      lstrip t = t).
  { intros [|c t] H; [done|]. simpl. by rewrite (H c eq_refl). }
  unfold strip, rstrip. rewrite (Hfix s Hh), Hfix.
  - apply reverse_involutive.
  - intros c. rewrite head_reverse. apply Hl.
Qed.

Lemma truthy_true s : truthy s = true ↔ s ≠ [].
Proof. by destruct s. Qed.

Lemma truthy_false s : truthy s = false ↔ s = [].
Proof. by destruct s. Qed.

(** [int("0")] is [0], whatever the digit limit. *)
Lemma py_int_zero m : py_int m (lit "0") = Some 0%Z.
Proof. reflexivity. Qed.

End Strings.

(** ** Histories *)

Section Histories.

Implicit Types (w : World) (evs : list Event).

Lemma events_since_app w w' evs :
  trace w' = trace w ++ evs → events_since w w' = evs.
Proof. unfold events_since. intros ->. by rewrite drop_app_length. Qed.

Lemma events_since_refl w : events_since w w = [].
Proof. apply events_since_app. by rewrite app_nil_r. Qed.

Lemma gets_app evs1 evs2 : gets (evs1 ++ evs2) = gets evs1 ++ gets evs2.
Proof. apply omap_app. Qed.

Lemma generate_calls_app evs1 evs2 :
  generate_calls (evs1 ++ evs2) = generate_calls evs1 ++ generate_calls evs2.
Proof. apply omap_app. Qed.

Lemma send_calls_app evs1 evs2 :
  send_calls (evs1 ++ evs2) = send_calls evs1 ++ send_calls evs2.
Proof. apply omap_app. Qed.

Lemma delivered_app evs1 evs2 :
  delivered (evs1 ++ evs2) = delivered evs1 ++ delivered evs2.
Proof. apply omap_app. Qed.

Lemma created_app evs1 evs2 :
  created (evs1 ++ evs2) = created evs1 ++ created evs2.
Proof. apply omap_app. Qed.

Lemma removals_app evs1 evs2 :
  removals (evs1 ++ evs2) = removals evs1 ++ removals evs2.
Proof. apply omap_app. Qed.

(** Only a call of [send_whatsapp_reply] delivers. *)
Lemma delivered_no_send evs : send_calls evs = [] → delivered evs = [].
Proof.
  induction evs as [|ev evs IH]; [done|].
  destruct ev; try exact IH. discriminate.
Qed.

End Histories.

(** The projections distribute over the concatenation of histories. *)
Create Rewrite HintDb history.
#[global] Hint Rewrite gets_app generate_calls_app send_calls_app
  delivered_app created_app removals_app : history.

(** ** The monad *)

Section Monad.

Context {S A B : Type}.

Lemma bind_ok (m : M S A) (k : A → M S B) s s' a :
  m s = (s', Ok a) → bind m k s = k a s'.
Proof. unfold bind. by intros ->. Qed.

Lemma bind_raise (m : M S A) (k : A → M S B) s s' e :
  m s = (s', Raise e) → bind m k s = (s', Raise e).
Proof. unfold bind. by intros ->. Qed.

End Monad.

(** ** The steps of the pipeline, one by one *)

Section Steps.

Variable env : Env.

Implicit Types (w : World) (fr : Frame) (evs : list Event).

Lemma silent_app evs1 evs2 : silent evs1 → silent evs2 → silent (evs1 ++ evs2).
Proof.
  intros (?&?&?) (?&?&?). unfold silent.
  rewrite generate_calls_app, send_calls_app, removals_app.
  by repeat match goal with H : _ = [] |- _ => rewrite H; clear H end.
Qed.

(** [send_whatsapp_reply] makes one call of the messaging service and
    raises what that call raises. *)
Lemma send_whatsapp_reply_run to text w :
  let r := messages_create env w (TWILIO_WHATSAPP_FROM env) to text in
  send_whatsapp_reply env to text w
  = (log (EvSend (TWILIO_WHATSAPP_FROM env) to text r) w, outcome r).
Proof. unfold send_whatsapp_reply. simpl. by destruct (messages_create _ _ _ _ _). Qed.

(** [gemini_fact_check] submits the prompt built around the transcript
    and returns the text of the answer. *)
Lemma gemini_fact_check_run transcript w :
  let prompt := prompt_prefix ++ transcript ++ prompt_suffix in
  let r := generate_content env w prompt in
  gemini_fact_check env transcript w
  = (log (EvGenerate prompt r) w,
     match r with
     | Ok resp =>
         match gen_text resp with
         | AttrValue v => Ok v
         | AttrMissing => Ok (gen_str resp)
         | AttrRaises e => Raise e
         end
     | Raise e => Raise e
     end).
Proof.
  unfold gemini_fact_check, call_generate_content, bind. simpl.
  destruct (generate_content _ _ _) as [resp|e]; simpl; [|done].
  unfold gen_getattr_text. by destruct (gen_text resp).
Qed.

(** [sarvam_transcribe] leaves the files alone and makes at most one
    call, of the transcription service. *)
Lemma sarvam_transcribe_run path w :
  ∃ evs, let out := sarvam_transcribe env path w in
    trace out.1 = trace w ++ evs ∧ files out.1 = files w
    ∧ silent evs ∧ gets evs = [] ∧ created evs = [].
Proof.
  unfold sarvam_transcribe, call_transcribe, bind.
  destruct (files w !! path) as [data|].
  - destruct (speech_to_text_transcribe _ _ _ _ _) as [resp|e] eqn:Hr; simpl.
    + exists [EvTranscribe path (Ok resp)].
      by destruct (extract_transcript resp).
    + by exists [EvTranscribe path (Raise e)].
  - exists []. simpl. by rewrite app_nil_r.
Qed.

(** [download_media] makes exactly one request; when it returns a path,
    that file exists and was created by this call. *)
Lemma download_media_run url w :
  ∃ evs, let out := download_media env url w in
    trace out.1 = trace w ++ evs
    ∧ silent evs ∧ gets evs = [url]
    ∧ ∀ p, out.2 = Ok p → is_Some (files out.1 !! p) ∧ created evs = [p].
Proof.
  unfold download_media, call_requests_get, raise_for_status, bind.
  destruct (requests_get env w url) as [resp|e] eqn:Hget; cbn -[media_extension].
  2: { by exists [EvGet url (Raise e)]. }
  destruct (_ && _); cbn -[media_extension].
  { by exists [EvGet url (Ok resp)]. }
  set (w1 := log _ w). set (path := path_join _ _).
  unfold call_open_wb. destruct (open_wb env w1 path) as [e|] eqn:Hopen;
    cbn -[media_extension].
  { exists [EvGet url (Ok resp); EvOpenW path (Some e)].
    by rewrite <- app_assoc. }
  set (w2 := set_files _ _). unfold call_write.
  destruct (write_close env w2 path (content resp)) as [e|] eqn:Hwrite;
    cbn -[media_extension].
  { exists [EvGet url (Ok resp); EvOpenW path None;
            EvWrite path (content resp) (Some e)].
    by rewrite <- !app_assoc. }
  exists [EvGet url (Ok resp); EvOpenW path None;
          EvWrite path (content resp) None].
  rewrite <- !app_assoc. split; [done|]. split; [done|]. split; [done|].
  intros p [= <-]. split; [|done].
  cbn [files set_files]. by rewrite lookup_insert_eq.
Qed.

End Steps.

(** ** The stages of [process_incoming] *)

Section Stages.

Variable env : Env.

Implicit Types (w : World) (fr : Frame) (evs : list Event).
Implicit Types (from_number body num_media media_url : option pystr).

Lemma media_extension_nonempty ct : media_extension ct ≠ [].
Proof.
  unfold media_extension.
  by repeat match goal with |- context [if ?b then _ else _] => destruct b end.
Qed.

Lemma path_join_nonempty a b : b ≠ [] → path_join a b ≠ [].
Proof.
  unfold path_join. intros Hb.
  repeat match goal with |- context [if ?c then _ else _] => destruct c end;
    [done | | ]; intros [_ H]%app_eq_nil; [done | discriminate].
Qed.

Lemma download_media_nonempty url w p :
  (download_media env url w).2 = Ok p → p ≠ [].
Proof.
  unfold download_media, call_requests_get, raise_for_status, bind.
  destruct (requests_get env w url) as [resp|e]; cbn -[media_extension];
    [|done].
  destruct (_ && _); cbn -[media_extension]; [done|].
  unfold call_open_wb. destruct (open_wb _ _ _); cbn -[media_extension];
    [done|].
  unfold call_write. destruct (write_close _ _ _ _); cbn -[media_extension];
    [done|].
  intros [= <-]. apply path_join_nonempty.
  intros [_ H]%app_eq_nil. by apply media_extension_nonempty in H.
Qed.

(** The condition of line 106 has no effect; it raises exactly when
    [num_media] is a non-empty string that is no integer literal. *)
Lemma media_present_run num_media media_url fr :
  media_present env num_media media_url fr
  = (fr,
     match num_media with
     | Some (c :: s) =>
         match py_int (int_max_str_digits env) (c :: s) with
         | Some n => Ok ((0 <? n)%Z && truthy_opt media_url)
         | None => Raise (ValueError (c :: s))
         end
     | _ => Ok false
     end).
Proof.
  unfold media_present. destruct num_media as [[|c s]|]; try done.
  cbn [truthy_opt truthy default]. by destruct (py_int _ _).
Qed.

Lemma media_present_declared num_media media_url fr :
  media_declared env num_media → truthy_opt media_url = true →
  media_present env num_media media_url fr = (fr, Ok true).
Proof.
  intros (s & n & -> & Hs & Hint & Hn) Hurl. rewrite media_present_run.
  destruct s as [|c s]; [done|]. rewrite Hint, Hurl.
  by rewrite (proj2 (Z.ltb_lt 0 n) Hn).
Qed.

Lemma resolve_transcript_text body num_media media_url fr :
  media_present env num_media media_url fr = (fr, Ok false) →
  resolve_transcript env body num_media media_url fr
  = (fr, Ok (strip (default [] (py_or body (Some []))))).
Proof. intros H. unfold resolve_transcript. by rewrite (bind_ok _ _ _ _ _ H). Qed.

Lemma resolve_transcript_error body num_media media_url fr e :
  media_present env num_media media_url fr = (fr, Raise e) →
  resolve_transcript env body num_media media_url fr = (fr, Raise e).
Proof. intros H. unfold resolve_transcript. by rewrite (bind_raise _ _ _ _ _ H). Qed.

Lemma resolve_transcript_media body num_media media_url fr :
  media_present env num_media media_url fr = (fr, Ok true) →
  resolve_transcript env body num_media media_url fr
  = match download_media env (default [] media_url) (world fr) with
    | (w1, Ok p) =>
        let '(w2, r) := sarvam_transcribe env p w1 in
        ({| world := w2; local_path := Some p |}, r)
    | (w1, Raise e) => ({| world := w1; local_path := local_path fr |}, Raise e)
    end.
Proof.
  intros H. unfold resolve_transcript. rewrite (bind_ok _ _ _ _ _ H).
  unfold bind, lift, set_local_path.
  destruct (download_media _ _ _) as [w1 [p|e]]; [|done]. simpl.
  by destruct (sarvam_transcribe _ _ _) as [w2 r].
Qed.

(** The resolution in the media branch: one fetch, nothing sent, and
    the path the fetch returned is held in [local_path] with its file in
    place. *)
Lemma resolve_transcript_media_run body num_media media_url w :
  media_present env num_media media_url (frame0 w) = (frame0 w, Ok true) →
  ∃ evs,
    let out := resolve_transcript env body num_media media_url (frame0 w) in
    trace (world out.1) = trace w ++ evs
    ∧ silent evs ∧ gets evs = [default [] media_url]
    ∧ (∀ p, local_path out.1 = Some p →
            (download_media env (default [] media_url) w).2 = Ok p)
    ∧ (∀ p, (download_media env (default [] media_url) w).2 = Ok p →
            local_path out.1 = Some p
            ∧ is_Some (files (world out.1) !! p)).
Proof.
  intros H. rewrite (resolve_transcript_media _ _ _ _ H). cbn [world frame0].
  destruct (download_media_run env (default [] media_url) w)
    as (evs1 & Ht1 & Hs1 & Hg1 & Hp1).
  destruct (download_media _ _ _) as [w1 [p|e]]; cbn [fst snd] in *.
  - destruct (sarvam_transcribe_run env p w1) as (evs2 & Ht2 & Hf2 & Hs2 & Hg2 & _).
    destruct (sarvam_transcribe _ _ _) as [w2 r]; cbn [fst snd world local_path] in *.
    exists (evs1 ++ evs2). split; [by rewrite Ht2, Ht1, app_assoc|].
    split; [by apply silent_app|].
    split; [by rewrite gets_app, Hg1, Hg2|].
    split; [by intros ? [= <-]|].
    intros ? [= <-]. split; [done|]. rewrite Hf2. by apply Hp1.
  - exists evs1. cbn [world local_path frame0 fst snd].
    split; [done|]. split; [done|]. split; [done|]. by split.
Qed.

(** Whatever the branch, the resolution sends nothing and asks no
    fact-check, and a path held in [local_path] names an existing file. *)
Lemma resolve_transcript_run body num_media media_url w :
  ∃ evs,
    let out := resolve_transcript env body num_media media_url (frame0 w) in
    trace (world out.1) = trace w ++ evs
    ∧ silent evs
    ∧ (∀ p, local_path out.1 = Some p →
            p ≠ [] ∧ is_Some (files (world out.1) !! p)).
Proof.
  pose proof (media_present_run num_media media_url (frame0 w)) as H.
  destruct (match num_media with Some (_ :: _) => _ | _ => _ end)
    as [[]|e] in H.
  - destruct (resolve_transcript_media_run body _ _ _ H)
      as (evs & Ht & Hs & _ & Hl & Hp).
    exists evs. split; [done|]. split; [done|]. intros p Hp'.
    split; [by eapply download_media_nonempty, Hl | by apply Hp, Hl].
  - rewrite (resolve_transcript_text _ _ _ _ H). exists [].
    cbn. by rewrite app_nil_r.
  - rewrite (resolve_transcript_error _ _ _ _ _ H). exists [].
    cbn. by rewrite app_nil_r.
Qed.

End Stages.

Section Replies.

Variable env : Env.

Implicit Types (w : World) (fr : Frame) (evs : list Event).
Implicit Types (from_number body num_media media_url : option pystr).

Lemma lift_send_run to text fr :
  let r := messages_create env (world fr) (TWILIO_WHATSAPP_FROM env) to text in
  lift (send_whatsapp_reply env to text) fr
  = ({| world := log (EvSend (TWILIO_WHATSAPP_FROM env) to text r) (world fr);
        local_path := local_path fr |}, outcome r).
Proof. unfold lift. by rewrite send_whatsapp_reply_run. Qed.

(** Lines 112-115: with an empty transcript the one action is the send
    of the insufficient-content reply. *)
Lemma check_and_reply_empty from_number fr :
  let r := messages_create env (world fr) (TWILIO_WHATSAPP_FROM env)
             from_number REPLY_INSUFFICIENT in
  check_and_reply env from_number [] fr
  = ({| world := log (EvSend (TWILIO_WHATSAPP_FROM env) from_number
                        REPLY_INSUFFICIENT r) (world fr);
        local_path := local_path fr |}, outcome r).
Proof. unfold check_and_reply. cbn [truthy negb]. apply lift_send_run. Qed.

(** Lines 117-118: with a transcript, the fact-check and then, if it
    returned, the send of the combined reply. *)
Lemma check_and_reply_nonempty from_number transcript fr :
  transcript ≠ [] →
  check_and_reply env from_number transcript fr
  = match gemini_fact_check env transcript (world fr) with
    | (w1, Ok fact_result) =>
        let text := reply_text transcript fact_result in
        let r := messages_create env w1 (TWILIO_WHATSAPP_FROM env)
                   from_number text in
        ({| world := log (EvSend (TWILIO_WHATSAPP_FROM env) from_number
                            text r) w1;
            local_path := local_path fr |}, outcome r)
    | (w1, Raise e) => ({| world := w1; local_path := local_path fr |}, Raise e)
    end.
Proof.
  intros Ht%truthy_true. unfold check_and_reply. rewrite Ht. cbn [negb].
  unfold bind. unfold lift at 1.
  destruct (gemini_fact_check _ _ _) as [w1 [fact|e]]; [|done].
  by rewrite lift_send_run.
Qed.

(** The second half of the [try] block touches neither files nor
    [local_path], fetches nothing, and delivers nothing when it raises. *)
Lemma check_and_reply_run from_number transcript fr :
  ∃ evs, let out := check_and_reply env from_number transcript fr in
    keeps fr out.1 evs
    ∧ (is_ok out.2 = false → delivered evs = [])
    ∧ (transcript = [] → generate_calls evs = []).
Proof.
  destruct transcript as [|c t].
  - rewrite check_and_reply_empty. eexists [_]. cbn [fst snd].
    split; [keeps_tac|]. split; [|done].
    by destruct (messages_create _ _ _ _ _).
  - rewrite check_and_reply_nonempty by done.
    rewrite gemini_fact_check_run.
    set (prompt := prompt_prefix ++ _). set (g := generate_content _ _ _).
    destruct (match g with Ok _ => _ | Raise _ => _ end) as [fact|e].
    + eexists [EvGenerate prompt g; _]. cbn [fst snd].
      split; [|split; [|done]].
      * keeps_tac.
      * by destruct (messages_create _ _ _ _ _).
    + exists [EvGenerate prompt g]. cbn [fst snd]. split; [keeps_tac|done].
Qed.

(** Lines 120-123: the handler prints the error and sends the apology.
    When the print raises, the handler raises with it and sends nothing;
    otherwise what the send raises is what the handler raises. *)
Lemma process_incoming_except_run from_number e fr :
  let msg := error_msg env e in
  let p := print_error env (world fr) msg in
  let w1 := log (EvPrint msg p) (world fr) in
  let r := messages_create env w1 (TWILIO_WHATSAPP_FROM env)
             from_number REPLY_APOLOGY in
  process_incoming_except env from_number e fr
  = match p with
    | None =>
        ({| world := log (EvSend (TWILIO_WHATSAPP_FROM env) from_number
                            REPLY_APOLOGY r) w1;
            local_path := local_path fr |}, outcome r)
    | Some e' => ({| world := w1; local_path := local_path fr |}, Raise e')
    end.
Proof.
  unfold process_incoming_except, bind. unfold lift at 1, print.
  destruct (print_error env (world fr) (error_msg env e)) as [e'|];
    cbn [of_error raise ret]; [done|].
  by rewrite lift_send_run.
Qed.

(** Lines 125-130: the cleanup never raises.  Without a path it does
    nothing; with the path of an existing file it calls [os.remove] once,
    and then the file is gone unless that call raised. *)
Lemma process_incoming_finally_run fr :
  ∃ evs, let out := process_incoming_finally env fr in
    out.2 = Ok tt
    ∧ trace (world out.1) = trace (world fr) ++ evs
    ∧ gets evs = [] ∧ generate_calls evs = [] ∧ send_calls evs = []
    ∧ created evs = []
    ∧ (local_path fr = None → evs = [] ∧ world out.1 = world fr)
    ∧ (∀ p, local_path fr = Some p → p ≠ [] →
            is_Some (files (world fr) !! p) →
            (removals evs = [(p, None)] ∧ files (world out.1) !! p = None)
            ∨ (∃ e, removals evs = [(p, Some e)]
                    ∧ files (world out.1) = files (world fr))).
Proof.
  destruct fr as [w lp]. cbn [world local_path].
  assert (Heq : process_incoming_finally env {| world := w; local_path := lp |}
    = match lp with
      | Some (c :: p) =>
          match files w !! (c :: p) with
          | Some _ =>
              match os_remove_error env w (c :: p) with
              | Some e =>
                  ({| world := log (EvRemove (c :: p) (Some e)) w;
                      local_path := lp |}, Ok tt)
              | None =>
                  ({| world := set_files (delete (c :: p) (files w))
                                 (log (EvRemove (c :: p) None) w);
                      local_path := lp |}, Ok tt)
              end
          | None => ({| world := w; local_path := lp |}, Ok tt)
          end
      | _ => ({| world := w; local_path := lp |}, Ok tt)
      end).
  { unfold process_incoming_finally, get_local_path, bind. cbn [fst snd].
    destruct lp as [[|c p]|]; try done.
    cbn [truthy_opt truthy default from_option id local_path].
    unfold lift at 1, os_path_exists. cbn [fst snd world].
    destruct (files w !! (c :: p)) as [data|] eqn:Hdata; [|done].
    rewrite bool_decide_eq_true_2 by done.
    unfold try_except, lift, os_remove. cbn [world]. rewrite Hdata.
    by destruct (os_remove_error env w (c :: p)). }
  rewrite Heq. clear Heq.
  destruct lp as [[|c p]|].
  1, 3: exists []; cbn; rewrite app_nil_r; repeat split; try done;
        by intros ? [= <-] ? ?.
  destruct (files w !! (c :: p)) as [data|] eqn:Hdata.
  2: { exists []. cbn. rewrite app_nil_r. repeat split; try done.
       intros ? [= <-] _ [? H]. by rewrite Hdata in H. }
  destruct (os_remove_error env w (c :: p)) as [e|].
  - exists [EvRemove (c :: p) (Some e)]. cbn. repeat split; try done.
    intros ? [= <-] _ _. right. by exists e.
  - exists [EvRemove (c :: p) None]. cbn. repeat split; try done.
    intros ? [= <-] _ _. left. split; [done|]. apply lookup_delete_eq.
Qed.

(** [process_incoming] is its three blocks in sequence, and its outcome
    is that of the [try]/[except] pair. *)
Lemma process_incoming_stages from_number body num_media media_url w :
  ∃ fr1 r1 fr2 r2 fr3,
    process_incoming_try env from_number body num_media media_url (frame0 w)
      = (fr1, r1)
    ∧ match r1 with
      | Ok a => (fr1, Ok a)
      | Raise e => process_incoming_except env from_number e fr1
      end = (fr2, r2)
    ∧ process_incoming_finally env fr2 = (fr3, Ok tt)
    ∧ process_incoming env from_number body num_media media_url w
      = (world fr3, r2).
Proof.
  unfold process_incoming, try_finally, try_except. fold (frame0 w).
  destruct (process_incoming_try _ _ _ _ _ _) as [fr1 r1].
  exists fr1, r1.
  destruct (match r1 with Ok a => (fr1, Ok a) | Raise e => _ end)
    as [fr2 r2] eqn:H2.
  exists fr2, r2.
  destruct (process_incoming_finally_run fr2) as (_ & H3 & _).
  destruct (process_incoming_finally env fr2) as [fr3 r3]. cbn in H3.
  subst r3. by exists fr3.
Qed.

Lemma process_incoming_try_run from_number body num_media media_url fr :
  process_incoming_try env from_number body num_media media_url fr
  = match resolve_transcript env body num_media media_url fr with
    | (fr1, Ok transcript) => check_and_reply env from_number transcript fr1
    | (fr1, Raise e) => (fr1, Raise e)
    end.
Proof. reflexivity. Qed.

End Replies.

(** ** Whole runs *)

Section Runs.

Variable env : Env.

Implicit Types (w : World) (fr : Frame) (evs : list Event).
Implicit Types (from_number body num_media media_url : option pystr).

(** What follows the [try] block: the handler if it raised (a print
    and, when the print returned, the apology), then the cleanup (at most
    one [os.remove]). *)
Lemma process_incoming_after_try from_number body num_media media_url w fr1 r1 :
  process_incoming_try env from_number body num_media media_url (frame0 w)
    = (fr1, r1) →
  ∃ evs2 evs3,
    let out := process_incoming env from_number body num_media media_url w in
    trace out.1 = trace (world fr1) ++ evs2 ++ evs3
    ∧ match r1 with
      | Ok _ => evs2 = [] ∧ out.2 = Ok tt
      | Raise e =>
          let msg := error_msg env e in
          let p := print_error env (world fr1) msg in
          let w1 := log (EvPrint msg p) (world fr1) in
          let r := messages_create env w1 (TWILIO_WHATSAPP_FROM env)
                     from_number REPLY_APOLOGY in
          match p with
          | None =>
              evs2 = [EvPrint msg None;
                      EvSend (TWILIO_WHATSAPP_FROM env) from_number
                        REPLY_APOLOGY r]
              ∧ out.2 = outcome r
          | Some e' => evs2 = [EvPrint msg (Some e')] ∧ out.2 = Raise e'
          end
      end
    ∧ (gets evs3 = [] ∧ generate_calls evs3 = [] ∧ send_calls evs3 = []
       ∧ created evs3 = [])
    ∧ (local_path fr1 = None → evs3 = [] ∧ files out.1 = files (world fr1))
    ∧ (∀ p, local_path fr1 = Some p → p ≠ [] →
            is_Some (files (world fr1) !! p) →
            (removals evs3 = [(p, None)] ∧ files out.1 !! p = None)
            ∨ (∃ e, removals evs3 = [(p, Some e)]
                    ∧ files out.1 = files (world fr1))).
Proof.
  intros Htry.
  destruct (process_incoming_stages env from_number body num_media media_url w)
    as (fr1' & r1' & fr2 & r2 & fr3 & Htry' & H2 & H3 & Hrun).
  rewrite Htry in Htry'. injection Htry' as <- <-. rewrite Hrun.
  destruct (process_incoming_finally_run env fr2)
    as (evs3 & _ & Ht3 & Hg3 & Hgen3 & Hs3 & Hc3 & Hnone & Hsome).
  rewrite H3 in Ht3, Hnone, Hsome. cbn [fst snd] in *.
  assert (∃ evs2, trace (world fr2) = trace (world fr1) ++ evs2
                  ∧ files (world fr2) = files (world fr1)
                  ∧ local_path fr2 = local_path fr1
                  ∧ match r1 with
                    | Ok _ => evs2 = [] ∧ r2 = Ok tt
                    | Raise e =>
                        let msg := error_msg env e in
                        let p := print_error env (world fr1) msg in
                        let w1 := log (EvPrint msg p) (world fr1) in
                        let r := messages_create env w1
                                   (TWILIO_WHATSAPP_FROM env)
                                   from_number REPLY_APOLOGY in
                        match p with
                        | None =>
                            evs2 = [EvPrint msg None;
                                    EvSend (TWILIO_WHATSAPP_FROM env)
                                      from_number REPLY_APOLOGY r]
                            ∧ r2 = outcome r
                        | Some e' =>
                            evs2 = [EvPrint msg (Some e')] ∧ r2 = Raise e'
                        end
                    end) as (evs2 & Ht2 & Hf2 & Hl2 & Hshape).
  { destruct r1 as [[]|e].
    - injection H2 as <- <-. exists []. by rewrite app_nil_r.
    - rewrite process_incoming_except_run in H2. cbv zeta in H2 |- *.
      destruct (print_error env (world fr1) (error_msg env e)) as [e'|];
        injection H2 as <- <-; eexists; frame_simpl;
        (split; [by rewrite <- ?app_assoc|]); done. }
  exists evs2, evs3. rewrite Hl2, Hf2 in *.
  split; [by rewrite Ht3, Ht2, app_assoc|]. split; [done|].
  split; [done|]. split; [|done].
  intros Hlp. destruct (Hnone Hlp) as [-> ->]. by rewrite Hf2.
Qed.

(** A whole run only adds to the history. *)
Lemma process_incoming_grows from_number body num_media media_url w :
  ∃ evs,
    trace (process_incoming env from_number body num_media media_url w).1
    = trace w ++ evs.
Proof.
  destruct (process_incoming_try env from_number body num_media media_url
              (frame0 w)) as [fr1 r1] eqn:Htry.
  destruct (process_incoming_after_try _ _ _ _ _ _ _ Htry)
    as (evs2 & evs3 & Ht & _).
  rewrite process_incoming_try_run in Htry.
  destruct (resolve_transcript_run env body num_media media_url w)
    as (evs1 & Ht1 & _).
  destruct (resolve_transcript _ _ _ _ _) as [fr0 [t|e]]; cbn [fst] in Ht1.
  - destruct (check_and_reply_run env from_number t fr0) as (evs & (Hk & _) & _).
    rewrite Htry in Hk. cbn [fst] in Hk.
    exists (evs1 ++ evs ++ evs2 ++ evs3).
    cbn [fst] in Ht. by rewrite Ht, Hk, Ht1, <- !app_assoc.
  - injection Htry as <- <-. exists (evs1 ++ evs2 ++ evs3).
    cbn [fst] in Ht. by rewrite Ht, Ht1, <- !app_assoc.
Qed.

End Runs.

(** ** The three clients *)

(** Lines 60-63 are the ordered strategies of the specification. *)
Lemma extract_transcript_first resp :
  extract_transcript resp = Some (first_nonempty (asr_strategies resp)).
Proof.
  unfold extract_transcript, asr_strategies, py_or.
  destruct (asr_getattr resp "transcript") as [[|??]|],
    (asr_getattr resp "text") as [[|??]|],
    (dict_get _ "transcript") as [[|??]|],
    (dict_get _ "text") as [[|??]|]; reflexivity.
Qed.

(** C5: for every response of the transcription service,
    [sarvam_transcribe] returns, trimmed of surrounding white space, the
    first non-empty value among the "transcript" attribute, the "text"
    attribute, and then the "transcript" and "text" fields of the
    structured dump, in this order; it returns the empty string when none
    of them is present; and for a response that carries only a "text"
    field (no "transcript" field) it returns that field's trimmed value. *)
Theorem C5_transcript_extraction (env : Env) (w : World) (path : pystr)
    (data : bytes) (resp : AsrResponse) :
  files w !! path = Some data →
  speech_to_text_transcribe env w data ASR_MODEL ASR_LANGUAGE = Ok resp →
  let out := sarvam_transcribe env path w in
  out.2 = Ok (strip (first_nonempty (asr_strategies resp)))
  ∧ (asr_field_absent resp "transcript" → asr_field_absent resp "text" →
     out.2 = Ok [])
  ∧ (∀ v, asr_field_absent resp "transcript" → asr_field_is resp "text" v →
          out.2 = Ok (strip v)).
Proof.
  intros Hfile Hresp out.
  assert (Hout : out.2 = Ok (strip (first_nonempty (asr_strategies resp)))).
  { unfold out, sarvam_transcribe, call_transcribe, bind.
    rewrite Hfile, Hresp. cbn [of_result ret fst snd].
    by rewrite extract_transcript_first. }
  split; [done|]. rewrite Hout. unfold asr_strategies. split.
  - intros [-> ->] [-> ->]. reflexivity.
  - intros v [-> ->] (Hsome & Hattr & Hdump).
    destruct Hattr as [Ha|Ha], Hdump as [Hd|Hd]; rewrite Ha, Hd in *.
    + by destruct Hsome.
    + by destruct v.
    + by destruct v.
    + by destruct v.
Qed.

(** C10: when the response of the generative model has no [text]
    attribute, [gemini_fact_check] does not raise and returns [str(resp)]. *)
Theorem C10_missing_text_returns_str (env : Env) (w : World)
    (transcript : pystr) (resp : GenResponse) :
  generate_content env w (prompt_prefix ++ transcript ++ prompt_suffix)
    = Ok resp →
  gen_text resp = AttrMissing →
  (gemini_fact_check env transcript w).2 = Ok (gen_str resp).
Proof.
  intros Hgen Htext. rewrite gemini_fact_check_run. cbn [snd].
  by rewrite Hgen, Htext.
Qed.

(** The extension table of lines 37-43, in the words of the
    specification: the first matching row decides. *)
Lemma media_extension_table ct :
  ((mentions ct (lit "opus") ∨ mentions ct (lit "ogg")) →
   media_extension ct = lit ".opus")
  ∧ (¬ mentions ct (lit "opus") → ¬ mentions ct (lit "ogg") →
     mentions ct (lit "wav") → media_extension ct = lit ".wav")
  ∧ (¬ mentions ct (lit "opus") → ¬ mentions ct (lit "ogg") →
     ¬ mentions ct (lit "wav") →
     (mentions ct (lit "mpeg") ∨ mentions ct (lit "mp3")) →
     media_extension ct = lit ".mp3")
  ∧ (¬ mentions ct (lit "opus") → ¬ mentions ct (lit "ogg") →
     ¬ mentions ct (lit "wav") → ¬ mentions ct (lit "mpeg") →
     ¬ mentions ct (lit "mp3") → media_extension ct = lit ".bin").
Proof.
  unfold media_extension. repeat split.
  - intros [H|H]; apply contains_spec in H; rewrite H; [done|].
    by rewrite orb_true_r.
  - intros H1%contains_false H2%contains_false H3%contains_spec.
    by rewrite H1, H2, H3.
  - intros H1%contains_false H2%contains_false H3%contains_false H.
    rewrite H1, H2, H3. cbn [orb].
    destruct H as [H|H]; apply contains_spec in H; rewrite H; [done|].
    by rewrite orb_true_r.
  - intros H1%contains_false H2%contains_false H3%contains_false
      H4%contains_false H5%contains_false.
    by rewrite H1, H2, H3, H4, H5.
Qed.

Lemma path_join_suffix a b : ∃ stem, path_join a b = stem ++ b.
Proof.
  unfold path_join.
  repeat match goal with |- context [if ?c then _ else _] => destruct c end.
  - by exists [].
  - by exists a.
  - exists (a ++ lit "/"). by rewrite <- app_assoc.
Qed.

(** C6 (amended): [download_media] takes the extension of the saved file
    from the declared content type alone, by the first row that matches
    among: opus or ogg, ".opus"; wav, ".wav"; mpeg or mp3, ".mp3";
    otherwise ".bin" (the words are searched as they are written, in lower
    case).  When the status of the response is from 400 to 599,
    [download_media] raises [HTTPError] to its caller and creates no
    file. *)
Theorem C6_extension_and_http_error (env : Env) (w : World) (url : pystr)
    (resp : Response) :
  requests_get env w url = Ok resp →
  let ct := default [] (headers resp !! "Content-Type"%string) in
  let out := download_media env url w in
  (∀ p, out.2 = Ok p →
        (∃ stem, p = stem ++ media_extension ct)
        ∧ files out.1 !! p = Some (content resp))
  ∧ ((mentions ct (lit "opus") ∨ mentions ct (lit "ogg")) →
     media_extension ct = lit ".opus")
  ∧ (¬ mentions ct (lit "opus") → ¬ mentions ct (lit "ogg") →
     mentions ct (lit "wav") → media_extension ct = lit ".wav")
  ∧ (¬ mentions ct (lit "opus") → ¬ mentions ct (lit "ogg") →
     ¬ mentions ct (lit "wav") →
     (mentions ct (lit "mpeg") ∨ mentions ct (lit "mp3")) →
     media_extension ct = lit ".mp3")
  ∧ (¬ mentions ct (lit "opus") → ¬ mentions ct (lit "ogg") →
     ¬ mentions ct (lit "wav") → ¬ mentions ct (lit "mpeg") →
     ¬ mentions ct (lit "mp3") → media_extension ct = lit ".bin")
  ∧ ((400 <= status_code resp < 600)%Z →
     out.2 = Raise (HTTPError (status_code resp))
     ∧ files out.1 = files w
     ∧ created (events_since w out.1) = []).
Proof.
  intros Hget ct out. split; [|split_and ?; try apply media_extension_table].
  - intros p. unfold out, download_media, call_requests_get,
      raise_for_status, bind.
    rewrite Hget. cbn -[media_extension]. fold ct.
    destruct (_ && _); cbn -[media_extension]; [done|].
    unfold call_open_wb. destruct (open_wb _ _ _); cbn -[media_extension];
      [done|].
    unfold call_write. destruct (write_close _ _ _ _);
      cbn -[media_extension]; [done|].
    intros [= <-]. split.
    + destruct (path_join_suffix (gettempdir env)
                  (uuid4_hex env (log (EvGet url (Ok resp)) w)
                   ++ media_extension ct)) as [stem ->].
      exists (stem ++ uuid4_hex env (log (EvGet url (Ok resp)) w)).
      by rewrite <- app_assoc.
    + apply lookup_insert_eq.
  - intros [Hlo Hhi]. unfold out, download_media, call_requests_get,
      raise_for_status, bind.
    rewrite Hget. cbn -[media_extension].
    rewrite (proj2 (Z.leb_le _ _) Hlo), (proj2 (Z.ltb_lt _ _) Hhi).
    cbn. split; [done|]. split; [done|].
    by rewrite (events_since_app w _ [EvGet url (Ok resp)]).
Qed.

(** ** The Orchestrator *)

(** C3: with [NumMedia] equal to "0", the transcript [process_incoming]
    uses is the body trimmed of surrounding white space (for every body,
    so for every non-empty one), its resolution has no effect at all, and
    [download_media] is not invoked anywhere in the run. *)
Theorem C3_text_body_is_the_transcript (env : Env) (w : World)
    (from_number media_url : option pystr) (body : pystr) :
  let num_media := Some (lit "0") in
  let out := process_incoming env from_number (Some body) num_media
               media_url w in
  resolve_transcript env (Some body) num_media media_url (frame0 w)
    = (frame0 w, Ok (strip body))
  ∧ process_incoming_try env from_number (Some body) num_media media_url
      (frame0 w)
    = check_and_reply env from_number (strip body) (frame0 w)
  ∧ gets (events_since w out.1) = [].
Proof.
  intros num_media out.
  assert (Hres : resolve_transcript env (Some body) num_media media_url
                   (frame0 w) = (frame0 w, Ok (strip body))).
  { rewrite resolve_transcript_text.
    - by destruct body.
    - unfold media_present, num_media. cbn [truthy_opt default from_option id].
      change (truthy (lit "0")) with true. cbv iota.
      by rewrite py_int_zero. }
  split; [done|].
  assert (Htry : process_incoming_try env from_number (Some body) num_media
                   media_url (frame0 w)
                 = check_and_reply env from_number (strip body) (frame0 w)).
  { by rewrite process_incoming_try_run, Hres. }
  split; [done|].
  destruct (check_and_reply_run env from_number (strip body) (frame0 w))
    as (evs1 & (Ht1 & _ & _ & Hg1 & _) & _).
  destruct (check_and_reply _ _ _ _) as [fr1 r1]. cbn [fst] in Ht1.
  destruct (process_incoming_after_try env _ _ _ _ _ _ _ Htry)
    as (evs2 & evs3 & Ht & Hshape & (Hg3 & _) & _).
  fold out in Ht, Hshape. cbn [fst] in Ht.
  rewrite (events_since_app w _ (evs1 ++ evs2 ++ evs3)).
  - rewrite !gets_app, Hg1, Hg3.
    handler_cases Hshape; done.
  - by rewrite Ht, Ht1, <- !app_assoc.
Qed.

(** C9 (amended): when [num_media] is a non-empty string that [int()]
    rejects, the [try] block raises [ValueError] before anything else
    happens, and the body is not used, whatever it is: nothing is fetched
    and nothing is submitted to the fact-check.  The handler prints the
    error.  When that print returns, the whole run consists of the print
    and the send of the apology to the sender; when the print raises, its
    exception leaves [process_incoming] and nothing is sent. *)
Theorem C9_bad_num_media_takes_error_path (env : Env) (w : World)
    (from_number body media_url : option pystr) (s : pystr) :
  s ≠ [] →
  py_int (int_max_str_digits env) s = None →
  let out := process_incoming env from_number body (Some s) media_url w in
  let evs := events_since w out.1 in
  let e := ValueError s in
  let msg := error_msg env e in
  let r := messages_create env (log (EvPrint msg None) w)
             (TWILIO_WHATSAPP_FROM env) from_number REPLY_APOLOGY in
  process_incoming_try env from_number body (Some s) media_url (frame0 w)
    = (frame0 w, Raise e)
  ∧ gets evs = []
  ∧ generate_calls evs = []
  ∧ (print_error env w msg = None →
     evs = [EvPrint msg None;
            EvSend (TWILIO_WHATSAPP_FROM env) from_number REPLY_APOLOGY r]
     ∧ send_calls evs = [(from_number, REPLY_APOLOGY)]
     ∧ out.2 = outcome r)
  ∧ (∀ e', print_error env w msg = Some e' →
           evs = [EvPrint msg (Some e')]
           ∧ send_calls evs = []
           ∧ out.2 = Raise e').
Proof.
  intros Hs Hint out evs e msg r.
  assert (Htry : process_incoming_try env from_number body (Some s) media_url
                   (frame0 w) = (frame0 w, Raise e)).
  { rewrite process_incoming_try_run.
    rewrite (resolve_transcript_error env _ _ _ _ e); [done|].
    rewrite media_present_run. destruct s; [done|]. by rewrite Hint. }
  split; [done|].
  destruct (process_incoming_after_try env _ _ _ _ _ _ _ Htry)
    as (evs2 & evs3 & Ht & Hshape & _ & Hnone & _).
  destruct (Hnone eq_refl) as [-> _]. fold out in Ht, Hshape.
  cbn [fst frame0 world] in Ht, Hshape. fold e msg in Hshape.
  rewrite app_nil_r in Ht. unfold evs. rewrite (events_since_app _ _ _ Ht).
  destruct (print_error env w msg) as [e'|]; destruct Hshape as [-> Hout].
  - split; [done|]. split; [done|]. split; [done|]. by intros ? [= <-].
  - split; [done|]. split; [done|]. split; [|done]. intros _. by fold r in Hout.
Qed.

(** The [try] block as a whole: it removes nothing, it has delivered
    nothing when it raises, and a path left in [local_path] names an
    existing file. *)
Lemma process_incoming_try_footprint (env : Env) (w : World)
    (from_number body num_media media_url : option pystr) :
  ∃ evs,
    let out := process_incoming_try env from_number body num_media media_url
                 (frame0 w) in
    trace (world out.1) = trace w ++ evs
    ∧ removals evs = []
    ∧ (is_ok out.2 = false → delivered evs = [])
    ∧ (∀ p, local_path out.1 = Some p →
            p ≠ [] ∧ is_Some (files (world out.1) !! p)).
Proof.
  rewrite process_incoming_try_run.
  destruct (resolve_transcript_run env body num_media media_url w)
    as (evs1 & Ht1 & (_ & Hs1 & Hr1) & Hp1).
  destruct (resolve_transcript _ _ _ _ _) as [fr0 [t|e]]; cbn [fst snd] in *.
  - destruct (check_and_reply_run env from_number t fr0)
      as (evs2 & (Ht2 & Hf2 & Hl2 & _ & _ & Hr2) & Hd2 & _).
    exists (evs1 ++ evs2). split; [by rewrite Ht2, Ht1, app_assoc|].
    split; [by rewrite removals_app, Hr1, Hr2|].
    split.
    + intros Hraise. rewrite delivered_app, (delivered_no_send _ Hs1).
      by apply Hd2.
    + intros p. rewrite Hl2, Hf2. apply Hp1.
  - exists evs1. split; [done|]. split; [done|].
    split; [intros _; by apply delivered_no_send | done].
Qed.

(** C2 (amended): when the transcript resolves to the empty string,
    [process_incoming] never calls [gemini_fact_check] and the first reply
    it sends is the fixed insufficient-content text, to the sender; if
    that send does not raise, it is the only reply and [process_incoming]
    returns without further processing. *)
Theorem C2_empty_transcript_guard (env : Env) (w : World)
    (from_number body num_media media_url : option pystr) (fr1 : Frame) :
  resolve_transcript env body num_media media_url (frame0 w) = (fr1, Ok []) →
  let out := process_incoming env from_number body num_media media_url w in
  let evs := events_since w out.1 in
  let r := messages_create env (world fr1) (TWILIO_WHATSAPP_FROM env)
             from_number REPLY_INSUFFICIENT in
  generate_calls evs = []
  ∧ head (send_calls evs) = Some (from_number, REPLY_INSUFFICIENT)
  ∧ (r = None →
     send_calls evs = [(from_number, REPLY_INSUFFICIENT)]
     ∧ delivered evs = [(from_number, REPLY_INSUFFICIENT)]
     ∧ out.2 = Ok tt).
Proof.
  intros Hres out evs r.
  destruct (resolve_transcript_run env body num_media media_url w)
    as (evs1 & Ht1 & (Hg1 & Hs1 & _) & _).
  rewrite Hres in Ht1. cbn [fst] in Ht1.
  assert (Htry := process_incoming_try_run env from_number body num_media
                    media_url (frame0 w)).
  rewrite Hres, check_and_reply_empty in Htry. fold r in Htry.
  destruct (process_incoming_after_try env _ _ _ _ _ _ _ Htry)
    as (evs2 & evs3 & Ht & Hshape & (_ & Hg3 & Hs3 & _) & _).
  fold out in Ht, Hshape. cbn [fst world log trace] in Ht.
  assert (Hevs : evs = evs1
                 ++ [EvSend (TWILIO_WHATSAPP_FROM env) from_number
                       REPLY_INSUFFICIENT r] ++ evs2 ++ evs3).
  { apply events_since_app. by rewrite Ht, Ht1, <- !app_assoc. }
  rewrite Hevs. clear Hevs Ht. autorewrite with history.
  rewrite Hg1, Hs1, Hg3, Hs3, (delivered_no_send _ Hs1),
    (delivered_no_send _ Hs3).
  split; [|split; [done|]].
  - destruct r; handler_cases Hshape; done.
  - intros Hr. rewrite Hr in *. destruct Hshape as [-> ->]. done.
Qed.

(** C7: when the transcript resolves to a non-empty string and the [try]
    block completes without an exception, [gemini_fact_check] is called
    once, with the prompt that embeds exactly that transcript, and the one
    reply sent to the sender is the text that contains the transcript and
    the result of the fact-check as they are. *)
Theorem C7_fact_check_and_reply (env : Env) (w : World)
    (from_number body num_media media_url : option pystr)
    (fr1 fr2 : Frame) (transcript : pystr) :
  resolve_transcript env body num_media media_url (frame0 w)
    = (fr1, Ok transcript) →
  transcript ≠ [] →
  process_incoming_try env from_number body num_media media_url (frame0 w)
    = (fr2, Ok tt) →
  ∃ fact_result,
    (gemini_fact_check env transcript (world fr1)).2 = Ok fact_result
    ∧ let out :=
        process_incoming env from_number body num_media media_url w in
      let evs := events_since w out.1 in
      let prompt := prompt_prefix ++ transcript ++ prompt_suffix in
      let reply := reply_text transcript fact_result in
      generate_calls evs = [prompt]
      ∧ mentions prompt transcript
      ∧ send_calls evs = [(from_number, reply)]
      ∧ delivered evs = [(from_number, reply)]
      ∧ mentions reply transcript
      ∧ mentions reply fact_result
      ∧ out.2 = Ok tt.
Proof.
  intros Hres Hne Htry.
  destruct (resolve_transcript_run env body num_media media_url w)
    as (evs1 & Ht1 & (Hg1 & Hs1 & _) & _).
  rewrite Hres in Ht1. cbn [fst] in Ht1.
  destruct (process_incoming_after_try env _ _ _ _ _ _ _ Htry)
    as (evs2 & evs3 & Ht & [-> Hout] & (_ & Hg3 & Hs3 & _) & _).
  rewrite process_incoming_try_run, Hres in Htry.
  rewrite check_and_reply_nonempty in Htry by done.
  rewrite gemini_fact_check_run in Htry |- *. cbn [snd].
  set (prompt := prompt_prefix ++ transcript ++ prompt_suffix) in *.
  set (g := generate_content env (world fr1) prompt) in *.
  destruct (match g with Ok _ => _ | Raise _ => _ end) as [fact|e];
    [|discriminate].
  exists fact. split; [done|]. cbn zeta in Htry.
  set (reply := reply_text transcript fact) in *.
  destruct (messages_create _ _ _ _ _) as [e|] eqn:Hsend; [discriminate|].
  injection Htry as <-. cbn [fst snd world log trace] in Ht.
  set (out := process_incoming env from_number body num_media media_url w)
    in *.
  set (evs := events_since w out.1).
  assert (Hevs : evs = evs1
                 ++ [EvGenerate prompt g;
                     EvSend (TWILIO_WHATSAPP_FROM env) from_number reply None]
                 ++ evs3).
  { apply events_since_app. by rewrite Ht, Ht1, <- !app_assoc. }
  rewrite Hevs. autorewrite with history.
  rewrite Hg1, Hs1, Hg3, Hs3, (delivered_no_send _ Hs1),
    (delivered_no_send _ Hs3).
  split; [done|]. split; [by exists prompt_prefix, prompt_suffix|].
  split; [done|]. split; [done|]. split; [|split; [|done]].
  - exists (lit "Transcript:" ++ [10]), ([10; 10] ++ lit "Fact-check:" ++ [10] ++ fact).
    unfold reply, reply_text. by rewrite <- !app_assoc.
  - exists (lit "Transcript:" ++ [10] ++ transcript ++ [10; 10]
            ++ lit "Fact-check:" ++ [10]), [].
    unfold reply, reply_text. by rewrite app_nil_r, <- !app_assoc.
Qed.


(** C4 (amended): when a media attachment is declared and a media URL is
    present, [download_media] is invoked exactly once; if it returns a
    path, then whatever happens afterwards the cleanup calls [os.remove]
    on that path once, and at the end the file is gone unless that call
    raised; what the deletion raises is ignored: the outcome of
    [process_incoming] is that of its [try]/[except] pair. *)
Theorem C4_one_fetch_and_cleanup (env : Env) (w : World)
    (from_number body num_media media_url : option pystr) :
  media_declared env num_media →
  truthy_opt media_url = true →
  let url := default [] media_url in
  let out := process_incoming env from_number body num_media media_url w in
  let evs := events_since w out.1 in
  gets evs = [url]
  ∧ (∀ p, (download_media env url w).2 = Ok p →
          (removals evs = [(p, None)] ∧ files out.1 !! p = None)
          ∨ (∃ e, removals evs = [(p, Some e)]))
  ∧ out.2
    = (try_except
         (process_incoming_try env from_number body num_media media_url)
         (process_incoming_except env from_number) (frame0 w)).2.
Proof.
  intros Hdecl Hurl url out evs.
  pose proof (media_present_declared env _ _ (frame0 w) Hdecl Hurl) as Hmp.
  destruct (resolve_transcript_media_run env body _ _ _ Hmp)
    as (evs1 & Ht1 & (_ & Hs1 & Hr1) & Hg1 & _ & Hp1).
  fold url in Hg1, Hp1.
  destruct (process_incoming_try env from_number body num_media media_url
              (frame0 w)) as [fr1 r1] eqn:Htry.
  assert (∃ evs', trace (world fr1) = trace w ++ evs1 ++ evs'
                  ∧ gets evs' = [] ∧ removals evs' = []
                  ∧ ∀ p, (download_media env url w).2 = Ok p →
                         local_path fr1 = Some p
                         ∧ is_Some (files (world fr1) !! p))
    as (evs' & Ht' & Hg' & Hr' & Hp').
  { rewrite process_incoming_try_run in Htry.
    destruct (resolve_transcript _ _ _ _ _) as [fr0 [t|e]];
      cbn [fst snd] in *.
    - destruct (check_and_reply_run env from_number t fr0)
        as (evs2 & (Ht2 & Hf2 & Hl2 & Hg2 & _ & Hr2) & _).
      rewrite Htry in Ht2, Hf2, Hl2. cbn [fst] in Ht2, Hf2, Hl2.
      exists evs2. split; [by rewrite Ht2, Ht1, app_assoc|].
      split; [done|]. split; [done|]. intros p Hp. rewrite Hl2, Hf2.
      by apply Hp1.
    - injection Htry as <- <-. exists []. by rewrite app_nil_r. }
  destruct (process_incoming_after_try env _ _ _ _ _ _ _ Htry)
    as (evs2 & evs3 & Ht & Hshape & (Hg3 & _) & _ & Hsome).
  fold out in Ht, Hshape, Hsome. cbn [fst] in Ht.
  assert (Hevs : evs = evs1 ++ evs' ++ evs2 ++ evs3).
  { apply events_since_app. by rewrite Ht, Ht', <- !app_assoc. }
  assert (Hquiet : gets evs2 = [] ∧ removals evs2 = []).
  { handler_cases Hshape; done. }
  destruct Hquiet as [Hg2 Hr2].
  rewrite Hevs. autorewrite with history.
  rewrite Hg1, Hg', Hg2, Hg3, Hr1, Hr', Hr2.
  split; [done|]. split.
  - intros p Hp. destruct (Hp' p Hp) as [Hlp Hfile].
    destruct (Hsome p Hlp (download_media_nonempty env _ _ _ Hp) Hfile)
      as [[? ?]|(e & ? & _)]; [by left | right; by exists e].
  - unfold try_except. rewrite Htry.
    destruct r1 as [[]|e]; [by destruct Hshape|].
    rewrite process_incoming_except_run. cbv zeta in Hshape |- *.
    by destruct (print_error env (world fr1) (error_msg env e));
      destruct Hshape.
Qed.

(** ** The webhook *)

(** C8 (amended): [twilio_webhook] makes no call of the pipeline.  It
    prints the form and, when that print returns, it records one task,
    [process_incoming] on the four fields of the form, and returns the
    acknowledgement without running the task; in the dispatch of one POST
    the acknowledgement is then sent before the first event of the task.
    When the print raises, the handler raises with it: no task is
    recorded, no acknowledgement is sent and nothing is processed. *)
Theorem C8_acknowledged_before_processing (env : Env) (w : World)
    (form : gmap string pystr) (background_tasks : list Task) :
  let task :=
    ProcessIncoming (form !! "From"%string)
      (Some (default [] (form !! "Body"%string)))
      (Some (default (lit "0") (form !! "NumMedia"%string)))
      (form !! "MediaUrl0"%string) in
  let msg := lit "Incoming webhook data: " ++ repr_form env form in
  let w1 := log (EvPrint msg None) w in
  let w2 := log (EvRespond JSON_ACCEPTED) w1 in
  (print_error env w msg = None →
   twilio_webhook env form background_tasks w
     = (w1, Ok (JSON_ACCEPTED, background_tasks ++ [task]))
   ∧ (serve_twilio_webhook env form w).1 = (run_task env task w2).1
   ∧ events_since w (serve_twilio_webhook env form w).1
     = [EvPrint msg None; EvRespond JSON_ACCEPTED]
       ++ events_since w2 (run_task env task w2).1)
  ∧ (∀ e, print_error env w msg = Some e →
          twilio_webhook env form background_tasks w
            = (log (EvPrint msg (Some e)) w, Raise e)
          ∧ serve_twilio_webhook env form w
            = (log (EvPrint msg (Some e)) w, Raise e)).
Proof.
  intros task msg w1 w2. split.
  - intros Hp.
    assert (Hhandler : ∀ tasks, twilio_webhook env form tasks w
                       = (w1, Ok (JSON_ACCEPTED, tasks ++ [task]))).
    { intros tasks. unfold twilio_webhook, bind, print. fold msg.
      by rewrite Hp. }
    split; [done|].
    assert (Hserve : (serve_twilio_webhook env form w).1
                     = (run_task env task w2).1).
    { unfold serve_twilio_webhook, bind at 1. rewrite Hhandler.
      change ((run_tasks env [task] w2).1 = (run_task env task w2).1).
      cbn [run_tasks]. unfold bind, ret.
      by destruct (run_task env task w2) as [w3 [[]|e]]. }
    split; [done|]. rewrite Hserve.
    destruct (process_incoming_grows env (form !! "From"%string)
                (Some (default [] (form !! "Body"%string)))
                (Some (default (lit "0") (form !! "NumMedia"%string)))
                (form !! "MediaUrl0"%string) w2) as [evs Hevs].
    change (trace (run_task env task w2).1 = trace w2 ++ evs) in Hevs.
    rewrite (events_since_app _ _ _ Hevs).
    apply events_since_app. rewrite Hevs. unfold w2, w1. cbn [trace log].
    by rewrite <- !app_assoc.
  - intros e Hp.
    assert (Hhandler : ∀ tasks, twilio_webhook env form tasks w
                       = (log (EvPrint msg (Some e)) w, Raise e)).
    { intros tasks. unfold twilio_webhook, bind, print. fold msg.
      by rewrite Hp. }
    split; [done|].
    unfold serve_twilio_webhook, bind at 1. by rewrite Hhandler.
Qed.

(** ** Instances *)



Lemma C2_empty_transcript_guard_witness :
  resolve_transcript env_ok (Some (lit "  ")) (Some (lit "0")) None
    (frame0 world0) = (frame0 world0, Ok [])
  ∧ send_calls
      (events_since world0
         (process_incoming env_ok sender (Some (lit "  ")) (Some (lit "0"))
            None world0).1)
    = [(sender, REPLY_INSUFFICIENT)]
  ∧ (process_incoming env_ok sender (Some (lit "  ")) (Some (lit "0"))
       None world0).2 = Ok tt.
Proof.
  assert (Hres :
    resolve_transcript env_ok (Some (lit "  ")) (Some (lit "0")) None
      (frame0 world0) = (frame0 world0, Ok []))
    by (vm_compute; reflexivity).
  split; [exact Hres|].
  destruct (C2_empty_transcript_guard env_ok world0 sender _ _ _ _ Hres)
    as (_ & _ & Hok).
  destruct (Hok eq_refl) as (Hs & _ & Hr). by split.
Defined.

(** C2 as stated fails when the send of the insufficient-content reply
    raises: the handler then sends the apology as a second reply. *)
Lemma C2_counterexample :
  ¬ claim_C2 env_send_fails_once world0 sender (Some []) (Some (lit "0")) None
  ∧ send_calls
      (events_since world0
         (process_incoming env_send_fails_once sender (Some [])
            (Some (lit "0")) None world0).1)
    = [(sender, REPLY_INSUFFICIENT); (sender, REPLY_APOLOGY)]
  ∧ delivered
      (events_since world0
         (process_incoming env_send_fails_once sender (Some [])
            (Some (lit "0")) None world0).1)
    = [(sender, REPLY_APOLOGY)].
Proof.
  split; [|by vm_compute].
  intros H.
  destruct (H (frame0 world0)) as (_ & Hs & _); [vm_compute; reflexivity|].
  vm_compute in Hs. discriminate.
Qed.

Lemma C4_one_fetch_and_cleanup_witness :
  media_declared env_ok (Some (lit "1"))
  ∧ truthy_opt sample_url = true
  ∧ gets
      (events_since world0
         (process_incoming env_ok sender None (Some (lit "1")) sample_url
            world0).1)
    = [default [] sample_url]
  ∧ removals
      (events_since world0
         (process_incoming env_ok sender None (Some (lit "1")) sample_url
            world0).1)
    = [(sample_path, None)]
  ∧ files
      (process_incoming env_ok sender None (Some (lit "1")) sample_url
         world0).1 !! sample_path = None.
Proof.
  assert (Hdecl : media_declared env_ok (Some (lit "1"))).
  { exists (lit "1"), 1%Z. split; [reflexivity|]. split; [discriminate|].
    split; [reflexivity | lia]. }
  split; [exact Hdecl|]. split; [reflexivity|].
  destruct (C4_one_fetch_and_cleanup env_ok world0 sender None
              (Some (lit "1")) sample_url Hdecl eq_refl) as (Hg & Hp & _).
  split; [exact Hg|].
  destruct (Hp sample_path) as [[Hr Hf]|[e He]].
  - vm_compute. reflexivity.
  - by split.
  - vm_compute in He. discriminate.
Defined.

(** C4 as stated fails when the write of the downloaded bytes raises:
    [download_media] has created the file, it raises before
    [local_path] is assigned, and the cleanup does not remove the file. *)
Lemma C4_counterexample :
  ¬ claim_C4 env_write_fails world0 sender None (Some (lit "1")) sample_url
  ∧ created
      (events_since world0
         (process_incoming env_write_fails sender None (Some (lit "1"))
            sample_url world0).1) = [sample_path]
  ∧ removals
      (events_since world0
         (process_incoming env_write_fails sender None (Some (lit "1"))
            sample_url world0).1) = []
  ∧ files
      (process_incoming env_write_fails sender None (Some (lit "1"))
         sample_url world0).1 !! sample_path = Some [].
Proof.
  split; [|by vm_compute].
  intros H. destruct H as [_ Hall].
  - exists (lit "1"), 1%Z. split; [reflexivity|]. split; [discriminate|].
    split; [reflexivity | lia].
  - reflexivity.
  - destruct (Hall sample_path) as [Hgone|[e He]].
    + vm_compute. left.
    + vm_compute in Hgone. discriminate.
    + vm_compute in He. by apply elem_of_nil in He.
Qed.

Lemma C5_transcript_extraction_witness :
  files world_audio !! sample_path = Some sample_audio
  ∧ speech_to_text_transcribe env_ok world_audio sample_audio ASR_MODEL
      ASR_LANGUAGE = Ok (sample_asr " hello ")
  ∧ (sarvam_transcribe env_ok sample_path world_audio).2 = Ok (lit "hello").
Proof.
  assert (Hfile : files world_audio !! sample_path = Some sample_audio)
    by (vm_compute; reflexivity).
  split; [exact Hfile|]. split; [reflexivity|].
  destruct (C5_transcript_extraction env_ok world_audio sample_path
              sample_audio (sample_asr " hello ") Hfile eq_refl)
    as (_ & _ & Htext).
  apply (Htext (lit " hello ")).
  - split; vm_compute; reflexivity.
  - split; [left; vm_compute; reflexivity|].
    split; [right | left]; vm_compute; reflexivity.
Defined.

Lemma C6_extension_and_http_error_witness :
  requests_get env_ok world0 (lit "https://api.twilio.com/media/ME0")
    = Ok (sample_response 200 "audio/ogg")
  ∧ media_extension (lit "audio/ogg") = lit ".opus"
  ∧ files
      (download_media env_ok (lit "https://api.twilio.com/media/ME0")
         world0).1 !! sample_path = Some sample_audio.
Proof.
  split; [reflexivity|].
  destruct (C6_extension_and_http_error env_ok world0
              (lit "https://api.twilio.com/media/ME0")
              (sample_response 200 "audio/ogg") eq_refl)
    as (Hsave & Hopus & _).
  split.
  - change (lit "audio/ogg")
      with (default [] (headers (sample_response 200 "audio/ogg")
                          !! "Content-Type"%string)).
    apply Hopus. right. exists (lit "audio/"), []. vm_compute. reflexivity.
  - apply Hsave. vm_compute. reflexivity.
Defined.

(** C6 as stated fails for a status that is neither a success nor an
    error for [raise_for_status], such as 300: [download_media] returns
    a path and the file is created. *)
Lemma C6_counterexample :
  ¬ claim_C6_status env_multiple_choices world0
      (lit "https://api.twilio.com/media/ME0")
  ∧ download_media env_multiple_choices
      (lit "https://api.twilio.com/media/ME0") world0
    = ((download_media env_multiple_choices
          (lit "https://api.twilio.com/media/ME0") world0).1,
       Ok sample_path)
  ∧ files
      (download_media env_multiple_choices
         (lit "https://api.twilio.com/media/ME0") world0).1 !! sample_path
    = Some sample_audio.
Proof.
  split; [|by vm_compute].
  intros H.
  destruct (H (sample_response 300 "audio/ogg") eq_refl) as [Hraise _].
  - cbn. lia.
  - vm_compute in Hraise. discriminate.
Qed.

Lemma C7_fact_check_and_reply_witness :
  resolve_transcript env_ok (Some tamil_question) (Some (lit "0")) None
    (frame0 world0) = (frame0 world0, Ok tamil_question)
  ∧ tamil_question ≠ []
  ∧ process_incoming_try env_ok sender (Some tamil_question)
      (Some (lit "0")) None (frame0 world0)
    = ((process_incoming_try env_ok sender (Some tamil_question)
          (Some (lit "0")) None (frame0 world0)).1, Ok tt)
  ∧ generate_calls
      (events_since world0
         (process_incoming env_ok sender (Some tamil_question)
            (Some (lit "0")) None world0).1)
    = [prompt_prefix ++ tamil_question ++ prompt_suffix]
  ∧ send_calls
      (events_since world0
         (process_incoming env_ok sender (Some tamil_question)
            (Some (lit "0")) None world0).1)
    = [(sender, reply_text tamil_question (lit "Verdict: TRUE"))].
Proof.
  assert (Hres :
    resolve_transcript env_ok (Some tamil_question) (Some (lit "0")) None
      (frame0 world0) = (frame0 world0, Ok tamil_question))
    by (vm_compute; reflexivity).
  assert (Hne : tamil_question ≠ []) by discriminate.
  assert (Htry :
    process_incoming_try env_ok sender (Some tamil_question)
      (Some (lit "0")) None (frame0 world0)
    = ((process_incoming_try env_ok sender (Some tamil_question)
          (Some (lit "0")) None (frame0 world0)).1, Ok tt))
    by (vm_compute; reflexivity).
  split; [exact Hres|]. split; [exact Hne|]. split; [exact Htry|].
  destruct (C7_fact_check_and_reply env_ok world0 sender _ _ _ _ _ _
              Hres Hne Htry) as (fact & Hfact & Hg & _ & Hs & _).
  split; [exact Hg|].
  vm_compute in Hfact. injection Hfact as <-. exact Hs.
Defined.

Lemma C9_bad_num_media_takes_error_path_witness :
  lit "abc" ≠ []
  ∧ py_int (int_max_str_digits env_ok) (lit "abc") = None
  ∧ send_calls
      (events_since world0
         (process_incoming env_ok sender (Some (lit "hello"))
            (Some (lit "abc")) None world0).1)
    = [(sender, REPLY_APOLOGY)]
  ∧ generate_calls
      (events_since world0
         (process_incoming env_ok sender (Some (lit "hello"))
            (Some (lit "abc")) None world0).1)
    = [].
Proof.
  assert (Hne : lit "abc" ≠ []) by discriminate.
  split; [exact Hne|]. split; [reflexivity|].
  destruct (C9_bad_num_media_takes_error_path env_ok world0 sender
              (Some (lit "hello")) None (lit "abc") Hne eq_refl)
    as (_ & _ & Hg & Hprinted & _).
  destruct (Hprinted eq_refl) as (_ & Hs & _).
  by split.
Defined.

(** C9 as stated fails when the standard output cannot take the error
    message: the print of line 122 raises inside the handler, the send of
    line 123 is not reached, and the exception leaves
    [process_incoming]. *)
Lemma C9_counterexample :
  ¬ claim_C9 env_print_fails world0 sender (Some (lit "hello")) None
      (lit "abc")
  ∧ send_calls
      (events_since world0
         (process_incoming env_print_fails sender (Some (lit "hello"))
            (Some (lit "abc")) None world0).1) = []
  ∧ (process_incoming env_print_fails sender (Some (lit "hello"))
       (Some (lit "abc")) None world0).2 = Raise stdout_error.
Proof.
  split; [|by vm_compute].
  intros H. destruct H as [Hsent _]; [discriminate | reflexivity |].
  vm_compute in Hsent. by apply elem_of_nil in Hsent.
Qed.

Lemma C8_acknowledged_before_processing_witness :
  print_error env_ok world0
    (lit "Incoming webhook data: " ++ repr_form env_ok sample_form) = None
  ∧ (twilio_webhook env_ok sample_form [] world0).2
    = Ok (JSON_ACCEPTED,
          [ProcessIncoming sender (Some (lit "hi")) (Some (lit "0")) None])
  ∧ events_since world0 (serve_twilio_webhook env_ok sample_form world0).1
    = [EvPrint (lit "Incoming webhook data: ") None;
       EvRespond JSON_ACCEPTED;
       EvGenerate (prompt_prefix ++ lit "hi" ++ prompt_suffix) (Ok sample_gen);
       EvSend (TWILIO_WHATSAPP_FROM env_ok) sender
         (reply_text (lit "hi") (lit "Verdict: TRUE")) None].
Proof.
  assert (Hp : print_error env_ok world0
                 (lit "Incoming webhook data: " ++ repr_form env_ok sample_form)
               = None) by reflexivity.
  split; [exact Hp|].
  destruct (C8_acknowledged_before_processing env_ok world0 sample_form [])
    as [Hack _].
  destruct (Hack Hp) as (Hhandler & _ & Hevs).
  split.
  - rewrite Hhandler. vm_compute. reflexivity.
  - rewrite Hevs. vm_compute. reflexivity.
Defined.

(** C8 as stated fails when the standard output cannot take the print
    of line 144: the handler raises before [add_task] and the [return],
    so no acknowledgement is sent, and nothing is processed. *)
Lemma C8_counterexample :
  ¬ claim_C8 env_print_fails world0 sample_form
  ∧ serve_twilio_webhook env_print_fails sample_form world0
    = (log (EvPrint (lit "Incoming webhook data: ") (Some stdout_error))
         world0,
       Raise stdout_error).
Proof.
  split; [|by vm_compute].
  intros (pre & post & Hevs & _).
  assert (Hin : EvRespond JSON_ACCEPTED
                ∈ events_since world0
                    (serve_twilio_webhook env_print_fails sample_form
                       world0).1).
  { rewrite Hevs. set_solver. }
  vm_compute in Hin. apply list_elem_of_singleton in Hin. discriminate Hin.
Qed.

Lemma C10_missing_text_returns_str_witness :
  generate_content env_text_missing world0
    (prompt_prefix ++ lit "hi" ++ prompt_suffix)
  = Ok {| gen_text := AttrMissing; gen_str := lit "response:" |}
  ∧ gen_text {| gen_text := AttrMissing; gen_str := lit "response:" |}
    = AttrMissing
  ∧ (gemini_fact_check env_text_missing (lit "hi") world0).2
    = Ok (lit "response:").
Proof.
  split; [reflexivity|]. split; [reflexivity|].
  exact (C10_missing_text_returns_str env_text_missing world0 (lit "hi")
           {| gen_text := AttrMissing; gen_str := lit "response:" |}
           eq_refl eq_refl).
Defined.

(** ** Further instances *)

Example py_int_samples :
  (fun s => py_int 4300 (lit s)) <$>
    ["0"; "2"; " 12 "; "+5"; "-3"; "1_0"; "007"; "abc"; ""; "_1"; "1_";
     "1__0"; "- 5"; "1 2"; "0x10"; "1.0"]%string
  = [Some 0; Some 2; Some 12; Some 5; Some (-3); Some 10; Some 7; None;
     None; None; None; None; None; None; None; None]%Z.
Proof. reflexivity. Qed.

(** A Tamil digit between a no-break space and an em space. *)
Example py_int_tamil_digit : py_int 4300 [160; 3047; 8195] = Some 1%Z.
Proof. reflexivity. Qed.

Example strip_sample : strip (lit "  a b  ") = lit "a b".
Proof. reflexivity. Qed.

Example media_extension_samples :
  media_extension <$>
    [lit "audio/ogg; codecs=opus"; lit "audio/x-wav"; lit "audio/mpeg";
     lit "audio/mp3"; lit "audio/wav+ogg"; lit "AUDIO/OGG"; lit "image/png";
     []]
  = [lit ".opus"; lit ".wav"; lit ".mp3"; lit ".mp3"; lit ".opus";
     lit ".bin"; lit ".bin"; lit ".bin"].
Proof. reflexivity. Qed.

(** A 404 makes [download_media] raise after the request alone. *)
Example download_media_not_found :
  download_media env_not_found (lit "https://api.twilio.com/media/ME0") world0
  = (log (EvGet (lit "https://api.twilio.com/media/ME0")
            (Ok (sample_response 404 "text/html"))) world0,
     Raise (HTTPError 404)).
Proof. reflexivity. Qed.

(** The second example of section 8: an empty body and no media give
    the insufficient-content reply, and no fact-check. *)
Example empty_body_run :
  let out := process_incoming env_ok sender (Some []) (Some (lit "0")) None
               world0 in
  events_since world0 out.1
  = [EvSend (TWILIO_WHATSAPP_FROM env_ok) sender REPLY_INSUFFICIENT None]
  ∧ out.2 = Ok tt.
Proof. vm_compute. by split. Qed.

(** A deletion that raises is swallowed: the run ends normally and the
    file stays. *)
Example remove_error_is_ignored :
  let out := process_incoming env_remove_fails sender None (Some (lit "1"))
               sample_url world0 in
  out.2 = Ok tt
  ∧ removals (events_since world0 out.1) = [(sample_path, Some sample_error)]
  ∧ files out.1 !! sample_path = Some sample_audio.
Proof. vm_compute. by repeat split. Qed.

(** A voice note, end to end: fetch, transcription, fact-check, reply,
    deletion. *)
Example voice_note_run :
  let out := process_incoming env_ok sender None (Some (lit "1")) sample_url
               world0 in
  send_calls (events_since world0 out.1)
  = [(sender, reply_text (lit "hello") (lit "Verdict: TRUE"))]
  ∧ files out.1 !! sample_path = None
  ∧ out.2 = Ok tt.
Proof. vm_compute. by repeat split. Qed.

(** One POST: the acknowledgement precedes the reply. *)
Example serve_sample :
  events_since world0 (serve_twilio_webhook env_ok sample_form world0).1
  = [EvPrint (lit "Incoming webhook data: ") None;
     EvRespond JSON_ACCEPTED;
     EvGenerate (prompt_prefix ++ lit "hi" ++ prompt_suffix) (Ok sample_gen);
     EvSend (TWILIO_WHATSAPP_FROM env_ok) sender
       (reply_text (lit "hi") (lit "Verdict: TRUE")) None].
Proof. vm_compute. reflexivity. Qed.

(** * Further properties *)

(** ** Shapes of the stages *)

Section Shapes.

Variable env : Env.

Implicit Types (w : World) (fr : Frame) (evs : list Event).
Implicit Types (from_number body num_media media_url : option pystr).

Lemma prints_app evs1 evs2 : prints (evs1 ++ evs2) = prints evs1 ++ prints evs2.
Proof. apply omap_app. Qed.

Lemma print_calls_app evs1 evs2 :
  print_calls (evs1 ++ evs2) = print_calls evs1 ++ print_calls evs2.
Proof. apply omap_app. Qed.

(** The events of the input resolution show in no other projection than
    [gets] and [created]. *)
Lemma fetch_events_quiet evs :
  Forall fetch_event evs →
  generate_calls evs = [] ∧ send_calls evs = [] ∧ delivered evs = []
  ∧ removals evs = [] ∧ prints evs = [] ∧ print_calls evs = [].
Proof.
  induction 1 as [|ev evs Hev _ IH]; [done|].
  destruct ev; try done; exact IH.
Qed.

Lemma strip_idemp (s : pystr) : strip (strip s) = strip s.
Proof.
  destruct (strip_spec s) as (_ & _ & _ & _ & _ & Hh & Hl).
  by apply strip_fixed.
Qed.

Lemma strip_blank (s : pystr) : blank s → strip s = [].
Proof. intros H. unfold strip. by rewrite (lstrip_nil_blank s H). Qed.

(** What [download_media] leaves behind, case by case: nothing when it
    raised before the write; the file with what had reached it when the
    write raised; the file with the body of the response when it
    returned. *)
Lemma download_media_shape url w :
  ∃ evs, let out := download_media env url w in
    trace out.1 = trace w ++ evs ∧ Forall fetch_event evs
    ∧ ((is_ok out.2 = false ∧ created evs = [] ∧ files out.1 = files w)
       ∨ (∃ p data e w2,
            out.2 = Raise e ∧ created evs = [p]
            ∧ write_close env w2 p data = Some e
            ∧ last evs = Some (EvWrite p data (Some e))
            ∧ files out.1 = <[p := write_landed env w2 p data]> (files w))
       ∨ (∃ p resp,
            out.2 = Ok p ∧ created evs = [p]
            ∧ files out.1 = <[p := content resp]> (files w))).
Proof.
  unfold download_media, call_requests_get, raise_for_status, bind.
  destruct (requests_get env w url) as [resp|e] eqn:Hget; cbn -[media_extension].
  2: { exists [EvGet url (Raise e)]. split; [done|]. split; [|by left].
       by repeat constructor. }
  destruct (_ && _); cbn -[media_extension].
  { exists [EvGet url (Ok resp)]. split; [done|]. split; [|by left].
    by repeat constructor. }
  set (w1 := log _ w). set (path := path_join _ _).
  unfold call_open_wb. destruct (open_wb env w1 path) as [e|] eqn:Hopen;
    cbn -[media_extension].
  { exists [EvGet url (Ok resp); EvOpenW path (Some e)].
    split; [by rewrite <- app_assoc|]. split; [|by left].
    by repeat constructor. }
  set (w2 := set_files _ _). unfold call_write.
  destruct (write_close env w2 path (content resp)) as [e|] eqn:Hwrite;
    cbn -[media_extension].
  { exists [EvGet url (Ok resp); EvOpenW path None;
            EvWrite path (content resp) (Some e)].
    split; [by rewrite <- !app_assoc|]. split; [by repeat constructor|].
    right. left. exists path, (content resp), e, w2.
    split; [done|]. split; [done|]. split; [done|]. split; [done|].
    apply insert_insert_eq. }
  exists [EvGet url (Ok resp); EvOpenW path None;
          EvWrite path (content resp) None].
  split; [by rewrite <- !app_assoc|]. split; [by repeat constructor|].
  right. right. exists path, resp. split; [done|]. split; [done|].
  apply insert_insert_eq.
Qed.

Lemma sarvam_transcribe_shape path w :
  ∃ evs, let out := sarvam_transcribe env path w in
    trace out.1 = trace w ++ evs ∧ Forall fetch_event evs
    ∧ files out.1 = files w ∧ created evs = []
    ∧ ∀ t, out.2 = Ok t → strip t = t.
Proof.
  unfold sarvam_transcribe, call_transcribe, bind.
  destruct (files w !! path) as [data|].
  - destruct (speech_to_text_transcribe _ _ _ _ _) as [resp|e] eqn:Hr; simpl.
    + exists [EvTranscribe path (Ok resp)].
      destruct (extract_transcript resp); cbn;
        (split; [done|]); (split; [by repeat constructor|]);
        repeat split; try done.
      intros t [= <-]. apply strip_idemp.
    + exists [EvTranscribe path (Raise e)]. cbn.
      split; [done|]. split; [by repeat constructor|]. done.
  - exists []. simpl. rewrite app_nil_r. by repeat split.
Qed.

(** The input resolution, whatever its branch. *)
Lemma resolve_transcript_shape body num_media media_url w :
  ∃ evs,
    let out := resolve_transcript env body num_media media_url (frame0 w) in
    resolution env w out.1 out.2 evs.
Proof.
  unfold resolution.
  pose proof (media_present_run env num_media media_url (frame0 w)) as H.
  destruct (match num_media with Some (_ :: _) => _ | _ => _ end)
    as [[]|e] in H.
  - rewrite (resolve_transcript_media env _ _ _ _ H). cbn [world frame0].
    pose proof (download_media_nonempty env (default [] media_url) w) as Hne.
    destruct (download_media_shape (default [] media_url) w)
      as (evs1 & Ht1 & Hf1 & Hcase).
    destruct (download_media _ _ _) as [w1 r1]; cbn [fst snd] in *.
    destruct Hcase as [(Hr & Hc & Hfiles)
                      |[(p & data & e & w2 & -> & Hc & Hw & _ & Hfiles)
                       |(p & resp & -> & Hc & Hfiles)]].
    + destruct r1 as [p|e]; [done|]. exists evs1.
      cbn [fst snd world local_path frame0]. rewrite Hc, Hfiles.
      split; [done|]. split; [done|]. split; [done|]. split; [done|].
      split; [|done]. intros _ p Hp. by apply elem_of_nil in Hp.
    + exists evs1. cbn [fst snd world local_path frame0]. rewrite Hc, Hfiles.
      split; [done|]. split; [done|].
      split; [intros q Hq; apply lookup_insert_ne; set_solver|].
      split; [done|]. split; [|done].
      intros Hrel. by rewrite Hrel in Hw.
    + destruct (sarvam_transcribe_shape p w1)
        as (evs2 & Ht2 & Hf2 & Hfiles2 & Hc2 & Hstrip).
      destruct (sarvam_transcribe _ _ _) as [w2 r2];
        cbn [fst snd world local_path] in *.
      exists (evs1 ++ evs2). rewrite created_app, Hc, Hc2, Hfiles2, Hfiles.
      split; [by rewrite Ht2, Ht1, app_assoc|].
      split; [by apply Forall_app|].
      split; [intros q Hq; apply lookup_insert_ne; set_solver|].
      split.
      { intros ? [= <-]. split; [done|]. split; [by apply Hne|].
        rewrite lookup_insert_eq. by eexists. }
      split; [|done]. intros _ q Hq. apply list_elem_of_singleton in Hq.
      by subst.
  - rewrite (resolve_transcript_text env _ _ _ _ H). exists [].
    cbn. rewrite app_nil_r. repeat split; try done.
    + intros _ p Hp. by apply elem_of_nil in Hp.
    + intros t [= <-]. apply strip_idemp.
  - rewrite (resolve_transcript_error env _ _ _ _ _ H). exists [].
    cbn. rewrite app_nil_r. repeat split; try done.
    intros _ p Hp. by apply elem_of_nil in Hp.
Qed.

End Shapes.

Section RunShape.

Variable env : Env.

Implicit Types (w : World) (fr : Frame) (evs : list Event).
Implicit Types (from_number body num_media media_url : option pystr).

(** The second half of the [try] block, outcome by outcome. *)
Lemma check_and_reply_shape from_number transcript fr :
  ∃ evs, let out := check_and_reply env from_number transcript fr in
    keeps fr out.1 evs
    ∧ ((transcript = []
        ∧ ∃ r, evs = [EvSend (TWILIO_WHATSAPP_FROM env) from_number
                        REPLY_INSUFFICIENT r]
               ∧ out.2 = outcome r
               ∧ sent_by env from_number REPLY_INSUFFICIENT r)
       ∨ (transcript ≠ []
          ∧ ∃ g,
              (∃ e, evs = [EvGenerate
                             (prompt_prefix ++ transcript ++ prompt_suffix) g]
                    ∧ out.2 = Raise e)
              ∨ (∃ fact r,
                   evs = [EvGenerate
                            (prompt_prefix ++ transcript ++ prompt_suffix) g;
                          EvSend (TWILIO_WHATSAPP_FROM env) from_number
                            (reply_text transcript fact) r]
                   ∧ out.2 = outcome r
                   ∧ sent_by env from_number
                       (reply_text transcript fact) r))).
Proof.
  destruct transcript as [|c t].
  - rewrite check_and_reply_empty. eexists [_]. cbn [fst snd].
    split; [keeps_tac|]. left. split; [done|]. eexists.
    split; [done|]. split; [done|]. by eexists.
  - rewrite check_and_reply_nonempty by done.
    rewrite gemini_fact_check_run.
    set (prompt := prompt_prefix ++ _). set (g := generate_content _ _ _).
    destruct (match g with Ok _ => _ | Raise _ => _ end) as [fact|e].
    + eexists [EvGenerate prompt g; _]. cbn [fst snd].
      split; [keeps_tac|]. right. split; [done|]. exists g. right.
      eexists _, _. split; [done|]. split; [done|]. by eexists.
    + exists [EvGenerate prompt g]. cbn [fst snd].
      split; [keeps_tac|]. right. split; [done|]. exists g. left.
      by exists e.
Qed.

Lemma process_incoming_finally_eq w lp :
  process_incoming_finally env {| world := w; local_path := lp |}
  = match lp with
    | Some (c :: p) =>
        match files w !! (c :: p) with
        | Some _ =>
            match os_remove_error env w (c :: p) with
            | Some e =>
                ({| world := log (EvRemove (c :: p) (Some e)) w;
                    local_path := lp |}, Ok tt)
            | None =>
                ({| world := set_files (delete (c :: p) (files w))
                               (log (EvRemove (c :: p) None) w);
                    local_path := lp |}, Ok tt)
            end
        | None => ({| world := w; local_path := lp |}, Ok tt)
        end
    | _ => ({| world := w; local_path := lp |}, Ok tt)
    end.
Proof.
  unfold process_incoming_finally, get_local_path, bind. cbn [fst snd].
  destruct lp as [[|c p]|]; try done.
  cbn [truthy_opt truthy default from_option id local_path].
  unfold lift at 1, os_path_exists. cbn [fst snd world].
  destruct (files w !! (c :: p)) as [data|] eqn:Hdata; [|done].
  rewrite bool_decide_eq_true_2 by done.
  unfold try_except, lift, os_remove. cbn [world]. rewrite Hdata.
  by destruct (os_remove_error env w (c :: p)).
Qed.

(** The cleanup, outcome by outcome: nothing, a deletion that raised, or
    a deletion that went through. *)
Lemma process_incoming_finally_shape fr :
  ∃ evs, let out := process_incoming_finally env fr in
    out.2 = Ok tt
    ∧ trace (world out.1) = trace (world fr) ++ evs
    ∧ ((evs = [] ∧ files (world out.1) = files (world fr))
       ∨ (∃ p e, local_path fr = Some p ∧ evs = [EvRemove p (Some e)]
                 ∧ os_remove_error env (world fr) p = Some e
                 ∧ files (world out.1) = files (world fr))
       ∨ (∃ p, local_path fr = Some p ∧ evs = [EvRemove p None]
               ∧ files (world out.1) = delete p (files (world fr))))
    ∧ (∀ p, local_path fr = Some p → p ≠ [] →
            is_Some (files (world fr) !! p) → evs ≠ []).
Proof.
  destruct fr as [w lp]. rewrite process_incoming_finally_eq.
  cbn [world local_path].
  destruct lp as [[|c p]|].
  1, 3: exists []; cbn; rewrite app_nil_r;
        (split; [done|]); (split; [done|]); (split; [by left|]);
        by intros ? [= <-] ? ?.
  destruct (files w !! (c :: p)) as [data|] eqn:Hdata.
  2: { exists []. cbn. rewrite app_nil_r.
       split; [done|]. split; [done|]. split; [by left|].
       intros ? [= <-] _ [? H]. by rewrite Hdata in H. }
  destruct (os_remove_error env w (c :: p)) as [e|] eqn:Hrm.
  - exists [EvRemove (c :: p) (Some e)]. cbn.
    split; [done|]. split; [done|]. split; [|done].
    right. left. by exists (c :: p), e.
  - exists [EvRemove (c :: p) None]. cbn.
    split; [done|]. split; [done|]. split; [|done].
    right. right. by exists (c :: p).
Qed.

(** A whole run as four stretches of events: the input resolution, the
    rest of the [try] block, the handler, the cleanup. *)
Lemma process_incoming_shape from_number body num_media media_url w :
  ∃ fr0 r0 fr1 r1 evs_r evs_c evs_h evs_f,
    let out := process_incoming env from_number body num_media media_url w in
    resolve_transcript env body num_media media_url (frame0 w) = (fr0, r0)
    ∧ process_incoming_try env from_number body num_media media_url
        (frame0 w) = (fr1, r1)
    ∧ resolution env w fr0 r0 evs_r
    ∧ keeps fr0 fr1 evs_c
    ∧ match r0 with
      | Ok t =>
          (t = []
           ∧ ∃ r, evs_c = [EvSend (TWILIO_WHATSAPP_FROM env) from_number
                             REPLY_INSUFFICIENT r]
                  ∧ r1 = outcome r
                  ∧ sent_by env from_number REPLY_INSUFFICIENT r)
          ∨ (t ≠ []
             ∧ ∃ g,
                 (∃ e, evs_c = [EvGenerate
                                  (prompt_prefix ++ t ++ prompt_suffix) g]
                       ∧ r1 = Raise e)
                 ∨ (∃ fact r,
                      evs_c = [EvGenerate
                                 (prompt_prefix ++ t ++ prompt_suffix) g;
                               EvSend (TWILIO_WHATSAPP_FROM env) from_number
                                 (reply_text t fact) r]
                      ∧ r1 = outcome r
                      ∧ sent_by env from_number (reply_text t fact) r))
      | Raise e => evs_c = [] ∧ r1 = Raise e
      end
    ∧ match r1 with
      | Ok _ => evs_h = [] ∧ out.2 = Ok tt
      | Raise e =>
          (∃ e', print_error env (world fr1) (error_msg env e) = Some e'
                 ∧ evs_h = [EvPrint (error_msg env e) (Some e')]
                 ∧ out.2 = Raise e')
          ∨ (∃ r, print_error env (world fr1) (error_msg env e) = None
                  ∧ evs_h = [EvPrint (error_msg env e) None;
                             EvSend (TWILIO_WHATSAPP_FROM env) from_number
                               REPLY_APOLOGY r]
                  ∧ out.2 = outcome r
                  ∧ sent_by env from_number REPLY_APOLOGY r)
      end
    ∧ events_since w out.1 = evs_r ++ evs_c ++ evs_h ++ evs_f
    ∧ ((evs_f = [] ∧ files out.1 = files (world fr0))
       ∨ (∃ p e, local_path fr0 = Some p ∧ evs_f = [EvRemove p (Some e)]
                 ∧ files out.1 = files (world fr0))
       ∨ (∃ p, local_path fr0 = Some p ∧ evs_f = [EvRemove p None]
               ∧ files out.1 = delete p (files (world fr0))))
    ∧ ((∀ w' p, os_remove_error env w' p = None) →
       ∀ p, local_path fr0 = Some p → p ≠ [] →
            is_Some (files (world fr0) !! p) →
            files out.1 = delete p (files (world fr0))).
Proof.
  destruct (process_incoming_stages env from_number body num_media media_url w)
    as (fr1 & r1 & fr2 & r2 & fr3 & Htry & H2 & H3 & Hrun).
  destruct (resolve_transcript env body num_media media_url (frame0 w))
    as [fr0 r0] eqn:Hres.
  exists fr0, r0, fr1, r1.
  destruct (resolve_transcript_shape env body num_media media_url w)
    as (evs_r & Hshape). rewrite Hres in Hshape. cbn [fst snd] in Hshape.
  pose proof Hshape as (Ht0 & _).
  assert (∃ evs_c, keeps fr0 fr1 evs_c
                   ∧ match r0 with
                     | Ok t =>
                         (t = []
                          ∧ ∃ r, evs_c = [EvSend (TWILIO_WHATSAPP_FROM env)
                                            from_number REPLY_INSUFFICIENT r]
                                 ∧ r1 = outcome r
                                 ∧ sent_by env from_number
                                     REPLY_INSUFFICIENT r)
                         ∨ (t ≠ []
                            ∧ ∃ g,
                                (∃ e, evs_c = [EvGenerate
                                                 (prompt_prefix ++ t
                                                  ++ prompt_suffix) g]
                                      ∧ r1 = Raise e)
                                ∨ (∃ fact r,
                                     evs_c = [EvGenerate
                                                (prompt_prefix ++ t
                                                 ++ prompt_suffix) g;
                                              EvSend (TWILIO_WHATSAPP_FROM env)
                                                from_number
                                                (reply_text t fact) r]
                                     ∧ r1 = outcome r
                                     ∧ sent_by env from_number
                                         (reply_text t fact) r))
                     | Raise e => evs_c = [] ∧ r1 = Raise e
                     end) as (evs_c & Hk & Hc).
  { rewrite process_incoming_try_run, Hres in Htry. destruct r0 as [t|e].
    - destruct (check_and_reply_shape from_number t fr0)
        as (evs_c & Hk & Hc). rewrite Htry in Hk, Hc. by exists evs_c.
    - injection Htry as <- <-. exists []. split; [|done].
      unfold keeps. by rewrite app_nil_r. }
  assert (∃ evs_h, keeps fr1 fr2 evs_h
                   ∧ match r1 with
                     | Ok _ => evs_h = [] ∧ r2 = Ok tt
                     | Raise e =>
                         (∃ e',
                            print_error env (world fr1) (error_msg env e)
                            = Some e'
                            ∧ evs_h = [EvPrint (error_msg env e) (Some e')]
                            ∧ r2 = Raise e')
                         ∨ (∃ r,
                              print_error env (world fr1) (error_msg env e)
                              = None
                              ∧ evs_h = [EvPrint (error_msg env e) None;
                                         EvSend (TWILIO_WHATSAPP_FROM env)
                                           from_number REPLY_APOLOGY r]
                              ∧ r2 = outcome r
                              ∧ sent_by env from_number REPLY_APOLOGY r)
                     end) as (evs_h & Hk2 & Hh).
  { destruct r1 as [[]|e].
    - injection H2 as <- <-. exists []. split; [|done].
      unfold keeps. by rewrite app_nil_r.
    - rewrite process_incoming_except_run in H2. cbv zeta in H2.
      destruct (print_error env (world fr1) (error_msg env e)) as [e'|]
        eqn:Hprint; injection H2 as <- <-.
      + eexists [_]. split; [keeps_tac|]. left. by exists e'.
      + eexists [_; _]. split; [keeps_tac|]. right. eexists.
        split; [done|]. split; [done|]. split; [done|]. by eexists. }
  destruct (process_incoming_finally_shape fr2)
    as (evs_f & _ & Ht3 & Hcase & Hnonempty).
  rewrite H3 in Ht3, Hcase. cbn [fst snd] in Ht3, Hcase.
  pose proof Hk as (Htc & Hfc & Hlc & _).
  destruct Hk2 as (Hth & Hfh & Hlh & _).
  exists evs_r, evs_c, evs_h, evs_f. rewrite Hrun. cbn [fst snd].
  rewrite Hlh, Hlc, Hfh, Hfc in Hcase.
  split; [done|]. split; [done|]. split; [done|].
  split; [exact Hk|]. split; [done|]. split; [done|].
  split.
  { apply events_since_app. by rewrite Ht3, Hth, Htc, Ht0, <- !app_assoc. }
  split.
  { destruct Hcase as [?|[(p & e & ? & ? & _ & ?)|?]];
      [by left | right; left; by exists p, e | by right; right]. }
  intros Hrel p Hlp Hne Hfile.
  destruct Hcase as [[-> _]|[(p' & e & _ & _ & Hrm & _)|(p' & Hlp' & _ & ->)]].
  - exfalso. apply (Hnonempty p); [by rewrite Hlh, Hlc | done | | done].
    by rewrite Hfh, Hfc.
  - by rewrite Hrel in Hrm.
  - rewrite Hlp in Hlp'. by injection Hlp' as <-.
Qed.

End RunShape.

#[global] Hint Rewrite prints_app print_calls_app : history.


(** ** Replies *)


(** X2: when the messaging service accepts every message and the
    standard output takes every print, [process_incoming] returns
    normally whatever the other services do, and it has sent, and
    delivered, exactly one reply to the sender.  With the messaging
    service alone, all that can leave [process_incoming] is what the
    print of the error message raised, and then nothing was sent. *)
Theorem process_incoming_returns_when_messaging_works (env : Env)
    (w : World) (from_number body num_media media_url : option pystr) :
  (∀ w' from_ to text, messages_create env w' from_ to text = None) →
  let out := process_incoming env from_number body num_media media_url w in
  let evs := events_since w out.1 in
  ((∀ w' text, print_error env w' text = None) →
   out.2 = Ok tt
   ∧ ∃ text, send_calls evs = [(from_number, text)]
             ∧ delivered evs = [(from_number, text)])
  ∧ (∀ e, out.2 = Raise e →
          send_calls evs = []
          ∧ ∃ msg, print_calls evs = [(msg, Some e)]).
Proof.
  intros Hrel out evs. unfold evs, out.
  destruct (process_incoming_shape env from_number body num_media media_url w)
    as (fr0 & r0 & fr1 & r1 & evs_r & evs_c & evs_h & evs_f
        & _ & _ & (_ & Hfetch & _) & _ & Hc & Hh & -> & Hf & _).
  destruct (fetch_events_quiet _ Hfetch) as (_ & Hs & Hd & _ & _ & Hp).
  autorewrite with history. rewrite Hs, Hd, Hp.
  run_cases Hc Hh Hf;
    try (match goal with
         | H : sent_by _ _ _ (Some _) |- _ =>
             destruct H as [? H]; rewrite Hrel in H; discriminate
         end);
    rewrite Hout; proj_simpl;
    (split;
     [ intros Hstdout;
       first [ match goal with
               | H : print_error _ _ _ = Some _ |- _ =>
                   rewrite Hstdout in H; discriminate
               end
             | split; [done | by eexists] ]
     | intros ? ?; first [ done | simplify_eq; split; [done | by eexists] ] ]).
Qed.

(** X3: [process_incoming] calls [gemini_fact_check] at most once, and
    only with a transcript that is not empty and is trimmed of surrounding
    white space. *)
Theorem fact_check_only_on_trimmed_transcript (env : Env) (w : World)
    (from_number body num_media media_url : option pystr) :
  let out := process_incoming env from_number body num_media media_url w in
  let evs := events_since w out.1 in
  generate_calls evs = []
  ∨ ∃ t, t ≠ [] ∧ strip t = t
         ∧ generate_calls evs = [prompt_prefix ++ t ++ prompt_suffix].
Proof.
  intros out evs. unfold evs, out.
  destruct (process_incoming_shape env from_number body num_media media_url w)
    as (fr0 & r0 & fr1 & r1 & evs_r & evs_c & evs_h & evs_f
        & _ & _ & (_ & Hfetch & _ & _ & _ & Hstrip) & _ & Hc & Hh & -> & Hf
        & _).
  destruct (fetch_events_quiet _ Hfetch) as (Hg & _).
  autorewrite with history. rewrite Hg.
  run_cases Hc Hh Hf; proj_simpl; try (by left);
    right; eexists; (split; [done|]); (split; [by apply Hstrip|]); done.
Qed.

(** X4: whichever branch resolves it, the transcript neither starts nor
    ends with white space. *)
Theorem resolve_transcript_trimmed (env : Env) (w : World)
    (body num_media media_url : option pystr) (fr : Frame) (t : pystr) :
  resolve_transcript env body num_media media_url (frame0 w) = (fr, Ok t) →
  strip t = t
  ∧ (∀ c, head t = Some c → py_isspace c = false)
  ∧ (∀ c, last t = Some c → py_isspace c = false).
Proof.
  intros Hres.
  destruct (resolve_transcript_shape env body num_media media_url w)
    as (evs & _ & _ & _ & _ & _ & Hstrip).
  rewrite Hres in Hstrip. specialize (Hstrip t eq_refl).
  split; [done|].
  destruct (strip_spec t) as (_ & _ & _ & _ & _ & Hh & Hl).
  rewrite Hstrip in Hh, Hl. by split.
Qed.

(** ** The text branch *)

Lemma media_present_no_media (env : Env) num_media media_url fr :
  no_media env num_media media_url →
  media_present env num_media media_url fr = (fr, Ok false).
Proof.
  intros Hno. rewrite media_present_run.
  destruct num_media as [[|c s]|]; try done.
  destruct Hno as [Hno|(n & Hint & Hn)]; [done|].
  cbn [default from_option id] in Hint. rewrite Hint.
  destruct Hn as [Hn|Hn].
  - by rewrite (proj2 (Z.ltb_ge 0 n) Hn).
  - by rewrite Hn, andb_false_r.
Qed.

(** A run whose line 106 is false: the body, trimmed, is the transcript,
    and neither the network fetch nor the file system is involved. *)
Lemma process_incoming_text_run (env : Env) (w : World)
    (from_number body num_media media_url : option pystr) :
  media_present env num_media media_url (frame0 w) = (frame0 w, Ok false) →
  let t := strip (default [] body) in
  let out := process_incoming env from_number body num_media media_url w in
  let evs := events_since w out.1 in
  resolve_transcript env body num_media media_url (frame0 w)
    = (frame0 w, Ok t)
  ∧ gets evs = [] ∧ created evs = [] ∧ removals evs = []
  ∧ files out.1 = files w
  ∧ generate_calls evs
    = if truthy t then [prompt_prefix ++ t ++ prompt_suffix] else [].
Proof.
  intros Hmp t out evs.
  assert (Hres : resolve_transcript env body num_media media_url (frame0 w)
                 = (frame0 w, Ok t)).
  { rewrite (resolve_transcript_text env _ _ _ _ Hmp). unfold t.
    by destruct body as [[|??]|]. }
  split; [done|]. unfold evs, out.
  destruct (process_incoming_shape env from_number body num_media media_url w)
    as (fr0 & r0 & fr1 & r1 & evs_r & evs_c & evs_h & evs_f
        & Hres' & _ & (Ht0 & _) & _ & Hc & Hh & -> & Hf & _).
  rewrite Hres in Hres'. injection Hres' as <- <-.
  cbn [frame0 world local_path] in Ht0, Hf.
  assert (evs_r = []) as ->.
  { apply (app_inv_head (trace w)). by rewrite app_nil_r. }
  autorewrite with history.
  destruct Hc as [[Ht (r & -> & -> & _)]
                 |[Hne (g & [(e & -> & ->)|(fact & r & -> & -> & _)])]];
    [rewrite Ht | apply truthy_true in Hne; rewrite Hne ..];
    repeat match type of Hh with
           | match outcome ?r with Ok _ => _ | Raise _ => _ end =>
               destruct r; cbn [outcome] in Hh
           end;
    shape_handler Hh;
    (destruct Hf as [[-> Hfiles]|[(? & ? & ? & _)|(? & ? & _)]];
       [|done..]);
    by proj_simpl.
Qed.

(** X5: when the condition of line 106 is false without raising, that
    is, when [num_media] is missing or empty, or [int(num_media)] returns
    an integer and either that integer is not positive or [media_url] is
    missing or empty, the transcript is the text body trimmed; nothing is
    fetched, no file is created or removed, the files are as before, and
    [gemini_fact_check] is called exactly when the trimmed body is not
    empty.  (A [num_media] that [int()] rejects is not such a case: it
    raises before [media_url] is looked at.) *)
Theorem text_branch_uses_body (env : Env) (w : World)
    (from_number body num_media media_url : option pystr) :
  no_media env num_media media_url →
  let t := strip (default [] body) in
  let out := process_incoming env from_number body num_media media_url w in
  let evs := events_since w out.1 in
  resolve_transcript env body num_media media_url (frame0 w)
    = (frame0 w, Ok t)
  ∧ gets evs = [] ∧ created evs = [] ∧ removals evs = []
  ∧ files out.1 = files w
  ∧ generate_calls evs
    = if truthy t then [prompt_prefix ++ t ++ prompt_suffix] else [].
Proof.
  intros Hno. apply process_incoming_text_run.
  by apply media_present_no_media.
Qed.

(** ** Files *)

(** X6: a run of [process_incoming] changes no file other than the one
    its download created: every other path holds at the end what it held
    at the start. *)
Theorem process_incoming_touches_only_its_file (env : Env) (w : World)
    (from_number body num_media media_url : option pystr) :
  let out := process_incoming env from_number body num_media media_url w in
  let evs := events_since w out.1 in
  ∀ q, q ∉ created evs → files out.1 !! q = files w !! q.
Proof.
  intros out evs. unfold evs, out.
  destruct (process_incoming_shape env from_number body num_media media_url w)
    as (fr0 & r0 & fr1 & r1 & evs_r & evs_c & evs_h & evs_f
        & _ & _ & (_ & _ & Hframe & Hlocal & _) & (_ & _ & _ & _ & Hcc & _)
        & Hc & Hh & -> & Hf & _).
  intros q. autorewrite with history. rewrite Hcc.
  assert (Hch : created evs_h = []).
  { destruct r1; shape_handler Hh; done. }
  rewrite Hch.
  destruct Hf as [[-> ->]|[(p & e & _ & -> & ->)|(p & Hlp & -> & ->)]];
    proj_simpl; rewrite ?app_nil_r; intros Hq; try by apply Hframe.
  destruct (Hlocal p Hlp) as (Hcr & _). rewrite Hcr in Hq.
  rewrite lookup_delete_ne.
  - apply Hframe. by rewrite Hcr.
  - intros ->. apply Hq. constructor.
Qed.

(** X7: when neither the write of the downloaded bytes nor [os.remove]
    ever fails, no file created by a run of [process_incoming] is left at
    its end. *)
Theorem process_incoming_leaves_no_file (env : Env) (w : World)
    (from_number body num_media media_url : option pystr) :
  (∀ w' p data, write_close env w' p data = None) →
  (∀ w' p, os_remove_error env w' p = None) →
  let out := process_incoming env from_number body num_media media_url w in
  let evs := events_since w out.1 in
  ∀ q, q ∈ created evs → files out.1 !! q = None.
Proof.
  intros Hwrite Hremove out evs. unfold evs, out.
  destruct (process_incoming_shape env from_number body num_media media_url w)
    as (fr0 & r0 & fr1 & r1 & evs_r & evs_c & evs_h & evs_f
        & _ & _ & (_ & _ & _ & Hlocal & Hheld & _) & (_ & _ & _ & _ & Hcc & _)
        & Hc & Hh & -> & Hf & Hgone).
  intros q. autorewrite with history. rewrite Hcc.
  assert (Hch : created evs_h = []).
  { destruct r1; shape_handler Hh; done. }
  assert (Hcf : created evs_f = []).
  { by destruct Hf as [[-> _]|[(? & ? & _ & -> & _)|(? & _ & -> & _)]]. }
  rewrite Hch, Hcf, !app_nil_r. intros Hq.
  pose proof (Hheld Hwrite q Hq) as Hlp.
  destruct (Hlocal q Hlp) as (_ & Hne & Hfile).
  rewrite (Hgone Hremove q Hlp Hne Hfile). apply lookup_delete_eq.
Qed.

(** ** The log *)


(** ** The webhook and the pipeline together *)

(** One POST whose print returned is that print, the acknowledgement,
    and then the run of [process_incoming] on the fields of the form. *)
Lemma serve_twilio_webhook_run (env : Env) (w : World)
    (form : gmap string pystr) :
  let msg := lit "Incoming webhook data: " ++ repr_form env form in
  let w2 := log (EvRespond JSON_ACCEPTED) (log (EvPrint msg None) w) in
  let run :=
    process_incoming env (form !! "From"%string)
      (Some (default [] (form !! "Body"%string)))
      (Some (default (lit "0") (form !! "NumMedia"%string)))
      (form !! "MediaUrl0"%string) w2 in
  print_error env w msg = None →
  (serve_twilio_webhook env form w).1 = run.1
  ∧ events_since w run.1
    = [EvPrint msg None; EvRespond JSON_ACCEPTED] ++ events_since w2 run.1.
Proof.
  intros msg w2 run Hp. split.
  - unfold serve_twilio_webhook, bind at 1, twilio_webhook, bind at 1, print.
    fold msg. rewrite Hp. cbn [of_error ret fst snd app].
    change ((run_tasks env
               [ProcessIncoming (form !! "From"%string)
                  (Some (default [] (form !! "Body"%string)))
                  (Some (default (lit "0") (form !! "NumMedia"%string)))
                  (form !! "MediaUrl0"%string)] w2).1 = run.1).
    cbn [run_tasks run_task]. unfold bind, ret. fold run.
    by destruct run as [w3 [[]|e]].
  - destruct (process_incoming_grows env (form !! "From"%string)
                (Some (default [] (form !! "Body"%string)))
                (Some (default (lit "0") (form !! "NumMedia"%string)))
                (form !! "MediaUrl0"%string) w2) as [evs Hevs].
    fold run in Hevs. rewrite (events_since_app _ _ _ Hevs).
    apply events_since_app. rewrite Hevs. unfold w2. cbn [trace log].
    by rewrite <- !app_assoc.
Qed.

(** One POST whose print raised is that print alone. *)
Lemma serve_twilio_webhook_raise (env : Env) (w : World)
    (form : gmap string pystr) (e : exn) :
  let msg := lit "Incoming webhook data: " ++ repr_form env form in
  print_error env w msg = Some e →
  serve_twilio_webhook env form w = (log (EvPrint msg (Some e)) w, Raise e).
Proof.
  intros msg Hp.
  unfold serve_twilio_webhook, bind at 1, twilio_webhook, bind at 1, print.
  fold msg. by rewrite Hp.
Qed.

(** X9: a POST whose form has no [NumMedia] field never leads to a
    download, even when it carries [MediaUrl0]: no file is created and
    the files are as before.  When the print of line 144 returns, the
    default "0" makes the trimmed [Body] (the empty string when [Body] is
    missing too) the transcript, and the fact-check is called exactly
    when it is not empty; when that print raises, the handler raises and
    nothing is checked or sent. *)
Theorem webhook_without_num_media_never_fetches (env : Env) (w : World)
    (form : gmap string pystr) :
  form !! "NumMedia"%string = None →
  let t := strip (default [] (form !! "Body"%string)) in
  let msg := lit "Incoming webhook data: " ++ repr_form env form in
  let out := serve_twilio_webhook env form w in
  let evs := events_since w out.1 in
  gets evs = [] ∧ created evs = []
  ∧ files out.1 = files w
  ∧ (print_error env w msg = None →
     generate_calls evs
     = if truthy t then [prompt_prefix ++ t ++ prompt_suffix] else [])
  ∧ (∀ e, print_error env w msg = Some e →
          generate_calls evs = [] ∧ send_calls evs = []
          ∧ out.2 = Raise e).
Proof.
  intros Hnm t msg out evs. unfold evs, out.
  destruct (print_error env w msg) as [e|] eqn:Hp.
  - rewrite (serve_twilio_webhook_raise env w form e Hp). fold msg.
    cbn [fst snd]. rewrite (events_since_app w _ [EvPrint msg (Some e)]) by done.
    split; [done|]. split; [done|]. split; [done|]. split; [done|].
    by intros ? [= <-].
  - destruct (serve_twilio_webhook_run env w form Hp) as [-> ->].
    rewrite Hnm. cbn [default from_option id]. fold msg.
    set (w2 := log (EvRespond JSON_ACCEPTED) _).
    destruct (process_incoming_text_run env w2 (form !! "From"%string)
                (Some (default [] (form !! "Body"%string)))
                (Some (lit "0")) (form !! "MediaUrl0"%string))
      as (_ & Hg & Hc & _ & Hf & Hgen).
    { unfold media_present. cbn [truthy_opt default from_option id].
      change (truthy (lit "0")) with true. cbv iota.
      by rewrite py_int_zero. }
    cbn [default from_option id] in Hgen. fold t in Hgen.
    autorewrite with history. rewrite Hg, Hc, Hgen, Hf.
    split; [done|]. split; [done|]. split; [done|]. split; [done|].
    by intros ? [=].
Qed.

(** ** [download_media] *)

Lemma media_extension_in ct : media_extension ct ∈ MEDIA_EXTENSIONS.
Proof.
  unfold media_extension, MEDIA_EXTENSIONS.
  repeat match goal with |- context [if ?b then _ else _] => destruct b end;
    set_solver.
Qed.

Lemma path_join_prefix a b :
  starts_with (lit "/") b = false → ∃ rest, path_join a b = a ++ rest.
Proof.
  intros Hb. unfold path_join. rewrite Hb.
  destruct (_ || _); eauto.
Qed.

(** The path [download_media] returns. *)
Lemma download_media_path (env : Env) (w : World) (url p : pystr) :
  (download_media env url w).2 = Ok p →
  ∃ resp, requests_get env w url = Ok resp
    ∧ p = path_join (gettempdir env)
            (uuid4_hex env (log (EvGet url (Ok resp)) w)
             ++ media_extension
                  (default [] (headers resp !! "Content-Type"%string))).
Proof.
  unfold download_media, call_requests_get, raise_for_status, bind.
  destruct (requests_get env w url) as [resp|e]; cbn -[media_extension];
    [|done].
  destruct (_ && _); cbn -[media_extension]; [done|].
  unfold call_open_wb. destruct (open_wb _ _ _); cbn -[media_extension];
    [done|].
  unfold call_write. destruct (write_close _ _ _ _); cbn -[media_extension];
    [done|].
  intros [= <-]. by exists resp.
Qed.

(** X10: the path [download_media] returns ends with one of the four
    extensions ".opus", ".wav", ".mp3", ".bin", and it is the only file
    the call created; when the generated name does not start with a
    slash (a uuid in hexadecimal never does), the path lies under the
    temporary directory. *)
Theorem download_media_saves_under_tempdir (env : Env) (w : World)
    (url p : pystr) :
  (download_media env url w).2 = Ok p →
  (∃ stem ext, ext ∈ MEDIA_EXTENSIONS ∧ p = stem ++ ext)
  ∧ created (events_since w (download_media env url w).1) = [p]
  ∧ ((∀ w', starts_with (lit "/") (uuid4_hex env w') = false) →
     ∃ rest, p = gettempdir env ++ rest).
Proof.
  intros Hp. destruct (download_media_path env w url p Hp) as (resp & _ & ->).
  set (ct := default [] (headers resp !! "Content-Type"%string)).
  set (hex := uuid4_hex env _). split; [|split].
  - destruct (path_join_suffix (gettempdir env) (hex ++ media_extension ct))
      as [stem ->].
    exists (stem ++ hex), (media_extension ct).
    split; [apply media_extension_in | by rewrite <- app_assoc].
  - destruct (download_media_run env url w) as (evs & Ht & _ & _ & Hc).
    rewrite (events_since_app _ _ _ Ht). by apply Hc.
  - intros Hhex. apply path_join_prefix.
    specialize (Hhex (log (EvGet url (Ok resp)) w)). fold hex in Hhex.
    destruct hex as [|c hex']; [|exact Hhex].
    pose proof (media_extension_in ct) as Hin. unfold MEDIA_EXTENSIONS in Hin.
    cbn [app].
    repeat (apply elem_of_cons in Hin as [->|Hin]; [reflexivity|]).
    by apply elem_of_nil in Hin.
Qed.


(** ** [sarvam_transcribe] *)

(** X12: a "transcript" attribute that holds only white space is taken
    as it is, since a non-empty string is true: the "text" attribute and
    the structured dump are not consulted and [sarvam_transcribe] returns
    the empty string. *)
Theorem sarvam_transcribe_blank_transcript (env : Env) (w : World)
    (path : pystr) (data : bytes) (resp : AsrResponse) (s : pystr) :
  files w !! path = Some data →
  speech_to_text_transcribe env w data ASR_MODEL ASR_LANGUAGE = Ok resp →
  asr_getattr resp "transcript" = Some s →
  s ≠ [] → blank s →
  (sarvam_transcribe env path w).2 = Ok [].
Proof.
  intros Hfile Hresp Hattr Hne Hblank.
  unfold sarvam_transcribe, call_transcribe, bind.
  rewrite Hfile, Hresp. cbn [of_result ret fst snd].
  unfold extract_transcript, py_or. rewrite Hattr.
  destruct s as [|c s]; [done|]. cbn [truthy_opt truthy negb].
  cbn [snd]. by rewrite (strip_blank _ Hblank).
Qed.

(** ** The media branch *)

(** X13: when a media attachment is declared and a media URL is present,
    the text body plays no part: two runs that differ in the body alone
    are the same run. *)
Theorem media_branch_ignores_body (env : Env) (w : World)
    (from_number body body' num_media media_url : option pystr) :
  media_declared env num_media →
  truthy_opt media_url = true →
  process_incoming env from_number body num_media media_url w
  = process_incoming env from_number body' num_media media_url w.
Proof.
  intros Hdecl Hurl.
  pose proof (media_present_declared env _ _ (frame0 w) Hdecl Hurl) as Hmp.
  unfold process_incoming, try_finally, try_except. fold (frame0 w).
  rewrite !process_incoming_try_run.
  by rewrite !(resolve_transcript_media env _ _ _ _ Hmp).
Qed.

(** ** The scripts *)

(** X14: [main.py] has no guard on the transcript: whenever the audio
    file is there, the transcription returns and the print of the
    transcript (line 26) returns, it submits one prompt, built around
    [str(transcript)] as it came, untrimmed; when the response has neither
    a "transcript" nor a "text" value, the prompt embeds the word None.
    When that print raises, the script ends there and submits nothing. *)
Theorem main_submits_prompt_without_guard (env : Env) (w : World)
    (data : bytes) (resp : AsrResponse) :
  files w !! MAIN_AUDIO_FILE = Some data →
  speech_to_text_transcribe env w data ASR_MODEL ASR_LANGUAGE = Ok resp →
  let transcript :=
    py_or (asr_getattr resp "transcript") (asr_getattr resp "text") in
  let line := lit "Transcript: " ++ py_str transcript in
  let w1 := log (EvTranscribe MAIN_AUDIO_FILE (Ok resp)) w in
  let evs := events_since w (main env w).1 in
  (print_error env w1 line = None →
   generate_calls evs
   = [main_prompt_prefix ++ py_str transcript ++ main_prompt_suffix]
   ∧ head (prints evs) = Some line
   ∧ (asr_getattr resp "transcript" = None →
      asr_getattr resp "text" = None →
      generate_calls evs
      = [main_prompt_prefix ++ lit "None" ++ main_prompt_suffix]))
  ∧ (∀ e, print_error env w1 line = Some e →
          generate_calls evs = [] ∧ (main env w).2 = Raise e).
Proof.
  intros Hfile Hresp transcript line w1 evs.
  set (prompt := main_prompt_prefix ++ py_str transcript ++ main_prompt_suffix).
  set (rest :=
         bind (call_generate_content env prompt)
           (fun response =>
              bind (print env ([10] ++ lit "--- FACT CHECK RESULT ---"))
                (fun _ => bind (gen_text_attr response)
                            (fun text => print env text)))).
  assert (Hrun : main env w
                 = match print_error env w1 line with
                   | Some e => (log (EvPrint line (Some e)) w1, Raise e)
                   | None => rest (log (EvPrint line None) w1)
                   end).
  { unfold main, call_transcribe. unfold bind at 1.
    rewrite Hfile, Hresp. cbn [of_result ret]. fold transcript w1 line prompt.
    unfold bind at 1, print at 1.
    by destruct (print_error env w1 line). }
  unfold evs. rewrite Hrun. clear Hrun.
  destruct (print_error env w1 line) as [e|].
  { split; [done|]. intros ? [= <-]. cbn [fst snd].
    by rewrite (events_since_app w _ [EvTranscribe MAIN_AUDIO_FILE (Ok resp);
                                      EvPrint line (Some e)])
      by (unfold w1; cbn [trace log]; by rewrite <- ?app_assoc). }
  split; [|done]. intros _.
  set (w2 := log (EvPrint line None) w1).
  assert (Hmain : generate_calls (events_since w (rest w2).1) = [prompt]
                  ∧ head (prints (events_since w (rest w2).1)) = Some line).
  { remember (rest w2) as o eqn:Ho.
    unfold rest, call_generate_content, bind, print, gen_text_attr in Ho.
    destruct (generate_content env w2 prompt) as [g|e];
      cbn [of_result ret raise fst snd] in Ho.
    - destruct (gen_text g); print_cases_in Ho; unfold raise, ret in Ho;
        subst o;
        (erewrite events_since_app;
         [|unfold w2, w1; cbn [trace log fst]; rewrite <- ?app_assoc;
           reflexivity]);
        done.
    - subst o.
      erewrite events_since_app;
        [|unfold w2, w1; cbn [trace log fst]; rewrite <- ?app_assoc;
          reflexivity].
      done. }
  destruct Hmain as [Hgen Hhead].
  split; [done|]. split; [done|].
  intros Ht Hx. rewrite Hgen. unfold prompt, transcript.
  by rewrite Ht, Hx.
Qed.

(** X15: [main.py] reads [response.text] without a default: when the
    generative model answers an object without a [text] attribute, the
    script never ends normally.  When the standard output takes every
    print, it raises [AttributeError] after it has printed the header of
    the result, where [gemini_fact_check] would return [str(resp)]. *)
Theorem main_needs_text_attribute (env : Env) (w : World)
    (data : bytes) (resp : AsrResponse) (g : GenResponse) :
  files w !! MAIN_AUDIO_FILE = Some data →
  speech_to_text_transcribe env w data ASR_MODEL ASR_LANGUAGE = Ok resp →
  (∀ w' prompt, generate_content env w' prompt = Ok g) →
  gen_text g = AttrMissing →
  is_ok (main env w).2 = false
  ∧ ((∀ w' text, print_error env w' text = None) →
     (main env w).2 = Raise (AttributeError "text")
     ∧ last (prints (events_since w (main env w).1))
       = Some ([10] ++ lit "--- FACT CHECK RESULT ---")).
Proof.
  intros Hfile Hresp Hgen Htext.
  unfold main, call_transcribe, call_generate_content, bind.
  rewrite Hfile, Hresp. cbn [of_result ret fst snd].
  split.
  - unfold print at 1. print_cases; [done|].
    rewrite Hgen. cbn [of_result ret fst snd].
    unfold print at 1. print_cases; [done|].
    unfold gen_text_attr. by rewrite Htext.
  - intros Hstdout. unfold print. rewrite !Hstdout.
    cbn [of_error of_result ret fst snd].
    rewrite Hgen. cbn [of_result ret fst snd]. rewrite !Hstdout.
    cbn [of_error of_result ret fst snd].
    unfold gen_text_attr. rewrite Htext. cbn [raise fst snd].
    split; [done|].
    erewrite events_since_app;
      [|cbn [trace log fst]; rewrite <- ?app_assoc; reflexivity].
    reflexivity.
Qed.

(** X16: lines 11-19 of [test_twilio.py] make one send, to the address
    "whatsapp:".  A send that raises is caught and reported by one print,
    and what that print does is how the script ends.  When the standard
    output takes every print, the script ends normally, having printed
    one line: the SID when the send went through, the error when it
    raised.  Whatever leaves the script was raised by the print of the
    [except] block. *)
Theorem test_twilio_catches_send_error (env : Env)
    (message_sid : World -> pystr) (w : World) :
  let out := test_twilio env message_sid w in
  let evs := events_since w out.1 in
  let r := messages_create env w (Some (lit "whatsapp:+14155238886"))
             (Some (lit "whatsapp:")) (lit "Test message from Twilio API") in
  let w1 := log (EvSend (Some (lit "whatsapp:+14155238886"))
                   (Some (lit "whatsapp:"))
                   (lit "Test message from Twilio API") r) w in
  let report e := lit "Error sending message: " ++ str_exn env e in
  send_calls evs
  = [(Some (lit "whatsapp:"), lit "Test message from Twilio API")]
  ∧ (∀ e, r = Some e →
          print_calls evs = [(report e, print_error env w1 (report e))]
          ∧ out.2 = outcome (print_error env w1 (report e)))
  ∧ ((∀ w' text, print_error env w' text = None) →
     out.2 = Ok tt
     ∧ (r = None → ∃ sid, prints evs = [lit "Message sent! SID: " ++ sid])
     ∧ (∀ e, r = Some e → prints evs = [report e]))
  ∧ (∀ e, out.2 = Raise e →
          ∃ e0, last (print_calls evs) = Some (report e0, Some e)).
Proof.
  intros out evs r w1 report.
  set (sid_line := lit "Message sent! SID: " ++ message_sid w1).
  assert (Hrun :
    out
    = match r with
      | Some e =>
          (log (EvPrint (report e) (print_error env w1 (report e))) w1,
           outcome (print_error env w1 (report e)))
      | None =>
          match print_error env w1 sid_line with
          | None => (log (EvPrint sid_line None) w1, Ok tt)
          | Some e1 =>
              let w2 := log (EvPrint sid_line (Some e1)) w1 in
              (log (EvPrint (report e1) (print_error env w2 (report e1))) w2,
               outcome (print_error env w2 (report e1)))
          end
      end).
  { unfold out, test_twilio, try_except, print. fold r w1 sid_line.
    destruct r as [e|].
    - fold (report e). by destruct (print_error env w1 (report e)).
    - destruct (print_error env w1 sid_line) as [e1|];
        cbn [of_error ret raise]; [|done].
      fold (report e1). by destruct (print_error env _ (report e1)). }
  unfold evs. rewrite Hrun. clear Hrun.
  assert (Htrace : ∀ evs', trace w1 ++ evs'
                           = trace w ++ EvSend (Some (lit "whatsapp:+14155238886"))
                                          (Some (lit "whatsapp:"))
                                          (lit "Test message from Twilio API")
                                          r :: evs').
  { intros evs'. unfold w1. cbn [trace log]. by rewrite <- app_assoc. }
  destruct r as [e|].
  - destruct (print_error env w1 (report e)) as [e'|] eqn:Hp;
      cbn [outcome fst snd];
      (erewrite events_since_app; [|cbn [trace log]; apply Htrace]).
    + split; [done|]. split; [intros ? [= <-]; by rewrite Hp|].
      split; [intros Hstdout; by rewrite Hstdout in Hp|].
      intros ? [= <-]. by exists e.
    + split; [done|]. split; [intros ? [= <-]; by rewrite Hp|].
      split; [|done]. intros _. split; [done|]. split; [done|].
      by intros ? [= <-].
  - destruct (print_error env w1 sid_line) as [e1|] eqn:Hp1.
    + cbv zeta.
      destruct (print_error env _ (report e1)) as [e2|] eqn:Hp2;
        cbn [outcome fst snd];
        (erewrite events_since_app;
         [|cbn [trace log]; rewrite <- app_assoc; apply Htrace]);
        (split; [done|]); (split; [done|]);
        (split; [intros Hstdout; by rewrite Hstdout in Hp1|]).
      * intros ? [= <-]. by exists e1.
      * done.
    + cbn [fst snd].
      erewrite events_since_app; [|cbn [trace log]; apply Htrace].
      split; [done|]. split; [done|]. split; [|done].
      intros _. split; [done|]. split; [|done]. intros _. by eexists.
Qed.

(** ** Instances of the further properties *)

Lemma process_incoming_returns_when_messaging_works_witness :
  (∀ w' from_ to text, messages_create env_write_fails w' from_ to text = None)
  ∧ (∀ w' text, print_error env_write_fails w' text = None)
  ∧ (process_incoming env_write_fails sender None (Some (lit "1")) sample_url
       world0).2 = Ok tt.
Proof.
  assert (H : ∀ w' from_ to text,
             messages_create env_write_fails w' from_ to text = None)
    by reflexivity.
  assert (Hstdout : ∀ w' text, print_error env_write_fails w' text = None)
    by reflexivity.
  split; [exact H|]. split; [exact Hstdout|].
  exact (proj1 (proj1 (process_incoming_returns_when_messaging_works
                         env_write_fails world0 sender None (Some (lit "1"))
                         sample_url H) Hstdout)).
Defined.

Lemma resolve_transcript_trimmed_witness :
  resolve_transcript env_ok (Some (lit "  hi ")) (Some (lit "0")) None
    (frame0 world0) = (frame0 world0, Ok (lit "hi"))
  ∧ strip (lit "hi") = lit "hi".
Proof.
  assert (H : resolve_transcript env_ok (Some (lit "  hi ")) (Some (lit "0"))
                None (frame0 world0) = (frame0 world0, Ok (lit "hi")))
    by (vm_compute; reflexivity).
  split; [exact H|].
  exact (proj1 (resolve_transcript_trimmed env_ok world0 _ _ _ _ _ H)).
Defined.

Lemma text_branch_uses_body_witness :
  no_media env_ok (Some (lit "-1")) sample_url
  ∧ resolve_transcript env_ok (Some (lit " hi ")) (Some (lit "-1")) sample_url
      (frame0 world0) = (frame0 world0, Ok (lit "hi"))
  ∧ gets
      (events_since world0
         (process_incoming env_ok sender (Some (lit " hi "))
            (Some (lit "-1")) sample_url world0).1) = [].
Proof.
  assert (H : no_media env_ok (Some (lit "-1")) sample_url).
  { right. exists (-1)%Z. split; [reflexivity | left; lia]. }
  split; [exact H|].
  destruct (text_branch_uses_body env_ok world0 sender (Some (lit " hi "))
              (Some (lit "-1")) sample_url H) as (Hres & Hg & _).
  split; [exact Hres | exact Hg].
Defined.

Lemma process_incoming_leaves_no_file_witness :
  (∀ w' p data, write_close env_ok w' p data = None)
  ∧ (∀ w' p, os_remove_error env_ok w' p = None)
  ∧ sample_path
    ∈ created
        (events_since world0
           (process_incoming env_ok sender None (Some (lit "1")) sample_url
              world0).1)
  ∧ files
      (process_incoming env_ok sender None (Some (lit "1")) sample_url
         world0).1 !! sample_path = None.
Proof.
  assert (Hw : ∀ w' p data, write_close env_ok w' p data = None)
    by reflexivity.
  assert (Hr : ∀ w' p, os_remove_error env_ok w' p = None) by reflexivity.
  assert (Hin : sample_path
                ∈ created
                    (events_since world0
                       (process_incoming env_ok sender None (Some (lit "1"))
                          sample_url world0).1))
    by (vm_compute; left).
  split; [exact Hw|]. split; [exact Hr|]. split; [exact Hin|].
  exact (process_incoming_leaves_no_file env_ok world0 sender None
           (Some (lit "1")) sample_url Hw Hr sample_path Hin).
Defined.


Lemma webhook_without_num_media_never_fetches_witness :
  form_without_num_media !! "NumMedia"%string = None
  ∧ gets
      (events_since world0
         (serve_twilio_webhook env_ok form_without_num_media world0).1) = []
  ∧ generate_calls
      (events_since world0
         (serve_twilio_webhook env_ok form_without_num_media world0).1)
    = [prompt_prefix ++ lit "hi" ++ prompt_suffix].
Proof.
  assert (H : form_without_num_media !! "NumMedia"%string = None)
    by (vm_compute; reflexivity).
  split; [exact H|].
  destruct (webhook_without_num_media_never_fetches env_ok world0
              form_without_num_media H) as (Hg & _ & _ & Hgen & _).
  split; [exact Hg|]. exact (Hgen eq_refl).
Defined.

Lemma download_media_saves_under_tempdir_witness :
  (download_media env_ok (lit "https://api.twilio.com/media/ME0") world0).2
  = Ok sample_path
  ∧ created
      (events_since world0
         (download_media env_ok (lit "https://api.twilio.com/media/ME0")
            world0).1) = [sample_path]
  ∧ ∃ rest, sample_path = gettempdir env_ok ++ rest.
Proof.
  assert (H : (download_media env_ok (lit "https://api.twilio.com/media/ME0")
                 world0).2 = Ok sample_path) by (vm_compute; reflexivity).
  split; [exact H|].
  destruct (download_media_saves_under_tempdir env_ok world0 _ _ H)
    as (_ & Hc & Hdir).
  split; [exact Hc|]. apply Hdir. reflexivity.
Defined.


Lemma sarvam_transcribe_blank_transcript_witness :
  files world_audio !! sample_path = Some sample_audio
  ∧ asr_getattr
      {| asr_attrs := {[ "transcript"%string := Some (lit "  ");
                         "text"%string := Some (lit "hello") ]};
         asr_model_dump := None |} "transcript" = Some (lit "  ")
  ∧ lit "  " ≠ [] ∧ blank (lit "  ")
  ∧ (sarvam_transcribe env_blank_transcript sample_path world_audio).2 = Ok [].
Proof.
  assert (Hfile : files world_audio !! sample_path = Some sample_audio)
    by (vm_compute; reflexivity).
  assert (Hattr : asr_getattr
            {| asr_attrs := {[ "transcript"%string := Some (lit "  ");
                               "text"%string := Some (lit "hello") ]};
               asr_model_dump := None |} "transcript" = Some (lit "  "))
    by (vm_compute; reflexivity).
  assert (Hne : lit "  " ≠ []) by discriminate.
  assert (Hblank : blank (lit "  ")) by (by repeat constructor).
  split; [exact Hfile|]. split; [exact Hattr|]. split; [exact Hne|].
  split; [exact Hblank|].
  exact (sarvam_transcribe_blank_transcript env_blank_transcript world_audio
           sample_path sample_audio _ (lit "  ") Hfile eq_refl Hattr Hne
           Hblank).
Defined.

Lemma media_branch_ignores_body_witness :
  media_declared env_ok (Some (lit "1"))
  ∧ truthy_opt sample_url = true
  ∧ process_incoming env_ok sender None (Some (lit "1")) sample_url world0
    = process_incoming env_ok sender (Some (lit "a caption"))
        (Some (lit "1")) sample_url world0.
Proof.
  assert (Hdecl : media_declared env_ok (Some (lit "1"))).
  { exists (lit "1"), 1%Z. split; [reflexivity|]. split; [discriminate|].
    split; [reflexivity | lia]. }
  split; [exact Hdecl|]. split; [reflexivity|].
  exact (media_branch_ignores_body env_ok world0 sender None
           (Some (lit "a caption")) (Some (lit "1")) sample_url Hdecl
           eq_refl).
Defined.

Lemma main_submits_prompt_without_guard_witness :
  files world_main !! MAIN_AUDIO_FILE = Some sample_audio
  ∧ speech_to_text_transcribe env_no_transcript world_main sample_audio
      ASR_MODEL ASR_LANGUAGE
    = Ok {| asr_attrs := ∅; asr_model_dump := None |}
  ∧ generate_calls (events_since world_main (main env_no_transcript world_main).1)
    = [main_prompt_prefix ++ lit "None" ++ main_prompt_suffix].
Proof.
  assert (Hfile : files world_main !! MAIN_AUDIO_FILE = Some sample_audio)
    by (vm_compute; reflexivity).
  split; [exact Hfile|]. split; [reflexivity|].
  destruct (main_submits_prompt_without_guard env_no_transcript world_main
              sample_audio {| asr_attrs := ∅; asr_model_dump := None |}
              Hfile eq_refl) as [Hprinted _].
  destruct (Hprinted eq_refl) as (_ & _ & Hnone).
  apply Hnone; vm_compute; reflexivity.
Defined.

Lemma main_needs_text_attribute_witness :
  files world_main !! MAIN_AUDIO_FILE = Some sample_audio
  ∧ (∀ w' prompt,
       generate_content env_text_missing w' prompt
       = Ok {| gen_text := AttrMissing; gen_str := lit "response:" |})
  ∧ (∀ w' text, print_error env_text_missing w' text = None)
  ∧ (main env_text_missing world_main).2 = Raise (AttributeError "text").
Proof.
  assert (Hfile : files world_main !! MAIN_AUDIO_FILE = Some sample_audio)
    by (vm_compute; reflexivity).
  assert (Hgen : ∀ w' prompt,
            generate_content env_text_missing w' prompt
            = Ok {| gen_text := AttrMissing; gen_str := lit "response:" |})
    by reflexivity.
  assert (Hstdout : ∀ w' text, print_error env_text_missing w' text = None)
    by reflexivity.
  split; [exact Hfile|]. split; [exact Hgen|]. split; [exact Hstdout|].
  destruct (main_needs_text_attribute env_text_missing world_main
              sample_audio (sample_asr " hello ") _ Hfile eq_refl Hgen
              eq_refl) as [_ Hraise].
  exact (proj1 (Hraise Hstdout)).
Defined.

Lemma process_incoming_touches_only_its_file_witness :
  (MAIN_AUDIO_FILE
   ∉ created
       (events_since world_main
          (process_incoming env_ok sender None (Some (lit "1")) sample_url
             world_main).1))
  ∧ files
      (process_incoming env_ok sender None (Some (lit "1")) sample_url
         world_main).1 !! MAIN_AUDIO_FILE = Some sample_audio.
Proof.
  assert (Hc : created
                 (events_since world_main
                    (process_incoming env_ok sender None (Some (lit "1"))
                       sample_url world_main).1) = [sample_path])
    by (vm_compute; reflexivity).
  assert (H : MAIN_AUDIO_FILE
              ∉ created
                  (events_since world_main
                     (process_incoming env_ok sender None (Some (lit "1"))
                        sample_url world_main).1)).
  { rewrite Hc. intros Hin%list_elem_of_singleton. discriminate Hin. }
  split; [exact H|].
  rewrite (process_incoming_touches_only_its_file env_ok world_main sender
             None (Some (lit "1")) sample_url MAIN_AUDIO_FILE H).
  vm_compute. reflexivity.
Defined.

(** More runs. *)

(** A standard output that cannot take the error message: the handler
    raises at its print, no apology is sent, and the exception leaves
    [process_incoming]. *)
Example print_error_run :
  let out := process_incoming env_print_fails sender (Some (lit "hello"))
               (Some (lit "abc")) None world0 in
  events_since world0 out.1
  = [EvPrint (error_msg env_print_fails (ValueError (lit "abc")))
       (Some stdout_error)]
  ∧ out.2 = Raise stdout_error.
Proof. vm_compute. by split. Qed.

(** A write that raises half-way: the file stays, with what reached
    it. *)
Example partial_write_run :
  let out := process_incoming env_write_partial sender None (Some (lit "1"))
               sample_url world0 in
  files out.1 !! sample_path = Some [Byte.x4f; Byte.x67]
  ∧ removals (events_since world0 out.1) = []
  ∧ send_calls (events_since world0 out.1) = [(sender, REPLY_APOLOGY)].
Proof. vm_compute. by repeat split. Qed.

(** [test_twilio.py] on a standard output that raises: the send goes
    through, both prints raise, and the second exception leaves the
    script. *)
Example test_twilio_print_error_run :
  let out := test_twilio env_print_fails (fun _ => lit "SM1") world0 in
  out.2 = Raise stdout_error
  ∧ length (print_calls (events_since world0 out.1)) = 2%nat
  ∧ prints (events_since world0 out.1) = [].
Proof. vm_compute. by repeat split. Qed.

Example test_twilio_error_run :
  let out := test_twilio env_send_down (fun _ => lit "SM1") world0 in
  out.2 = Ok tt
  ∧ prints (events_since world0 out.1) = [lit "Error sending message: "].
Proof. vm_compute. by split.  Qed.

Example main_run :
  let out := main env_ok world_main in
  prints (events_since world_main out.1)
  = [lit "Transcript:  hello ";
     [10] ++ lit "--- FACT CHECK RESULT ---";
     lit "Verdict: TRUE"]
  ∧ out.2 = Ok tt.
Proof. vm_compute. by split. Qed.

Example negative_num_media_run :
  let out := process_incoming env_ok sender (Some (lit " hi "))
               (Some (lit "-1")) sample_url world0 in
  send_calls (events_since world0 out.1)
  = [(sender, reply_text (lit "hi") (lit "Verdict: TRUE"))]
  ∧ files out.1 = files world0.
Proof. vm_compute. by split. Qed.
